(** * Kibana fragments: Go language-server launcher, expression render
    handler and the SIEM events-over-time query builder.

    Shallow embedding of
      - x-pack/legacy/plugins/code/server/lsp/go_launcher.ts
      - the expression render handler (ExpressionRenderHandler)
      - the events-over-time query builder (buildEventsOverTimeQuery)
      - the reducer and the datafeed switch of the SIEM ML popover
      - the plugin dependencies, shutdown and schema registration of the
        core server
    followed by the properties proved about them. *)

From Stdlib Require Import ZArith Ascii.
From stdpp Require Import base strings gmap list sorting pretty.

Set Warnings "-register-all".

Local Open Scope string_scope.
Local Open Scope Z_scope.
Local Open Scope list_scope.

(* ===================================================================== *)
(** ** JavaScript values, errors and completions                          *)
(* ===================================================================== *)

Module Js.

(** [new Error(message)]. *)
Inductive JsError : Type :=
| Error (message : string).

(** Outcome of evaluating a statement list: a value, or a [throw]
    (for an [async] function: a promise resolved, or rejected). *)
Inductive Completion (A : Type) : Type :=
| Normal (a : A)
| Throw (e : JsError).
Arguments Normal {A} a.
Arguments Throw {A} e.

Definition is_throw {A} (c : Completion A) : bool :=
  match c with Normal _ => false | Throw _ => true end.

(** The fragment of JavaScript values that the modelled functions touch.
    Numbers are the integer-valued ones; objects keep their properties in
    insertion order. *)
Inductive Value : Type :=
| VUndefined
| VNull
| VBool (b : bool)
| VNum (n : Z)
| VStr (s : string)
| VArr (items : list Value)
| VObj (props : list (string * Value)).

(** ToBoolean. *)
Definition truthy (v : Value) : bool :=
  match v with
  | VUndefined | VNull => false
  | VBool b => b
  | VNum n => negb (n =? 0)
  | VStr s => negb (String.eqb s "")
  | VArr _ | VObj _ => true
  end.

(** Lookup of an own property in an object literal's property list. *)
Fixpoint assoc (k : string) (props : list (string * Value)) : option Value :=
  match props with
  | [] => None
  | (k', v) :: rest => if String.eqb k k' then Some v else assoc k rest
  end.

(** [v.k] for a value that is not null or undefined ([undefined] when the
    property is absent; primitives have none of the properties used
    here). *)
Definition get (k : string) (v : Value) : Value :=
  match v with
  | VObj props => default VUndefined (assoc k props)
  | _ => VUndefined
  end.

(** [a === b] against a string literal. *)
Definition strict_eq_str (v : Value) (s : string) : bool :=
  match v with
  | VStr s' => String.eqb s' s
  | _ => false
  end.

(** [n.toString()] of an integer-valued number. *)
Definition num_toString (n : Z) : string := pretty n.

(** ToString, as performed by a template literal or by [+] with a
    string. An array joins its elements with commas, printing null and
    undefined elements as the empty string. *)
Fixpoint toString (v : Value) : string :=
  match v with
  | VUndefined => "undefined"
  | VNull => "null"
  | VBool true => "true"
  | VBool false => "false"
  | VNum n => num_toString n
  | VStr s => s
  | VArr items =>
      (fix join (l : list Value) : string :=
         match l with
         | [] => ""
         | x :: rest =>
             let sx := match x with
                       | VUndefined | VNull => ""
                       | _ => toString x
                       end in
             match rest with
             | [] => sx
             | _ :: _ => sx +:+ "," +:+ join rest
             end
         end) items
  | VObj _ => "[object Object]"
  end.

(** ToString of a possibly missing string property ([o.k] where every
    property of [o] is a string). *)
Definition opt_toString (o : option string) : string :=
  match o with
  | Some s => s
  | None => "undefined"
  end.

(** The own enumerable properties of a string or an array: its
    indices. *)
Definition indexed (items : list Value) : list (string * Value) :=
  imap (λ i v, (pretty i, v)) items.

Fixpoint characters (s : string) : list Value :=
  match s with
  | EmptyString => []
  | String c rest => VStr (String c EmptyString) :: characters rest
  end.

(** Spread of a value inside an object literal: [{ ...v }]. Undefined,
    null, booleans and numbers contribute nothing. *)
Definition spread_props (v : Value) : list (string * Value) :=
  match v with
  | VObj props => props
  | VArr items => indexed items
  | VStr s => indexed (characters s)
  | VUndefined | VNull | VBool _ | VNum _ => []
  end.

(** An object whose properties are strings, with an optional prototype:
    enough for [process.env] and [Object.create(process.env)]. *)
Record StrObject : Type := {
  own : gmap string string;
  proto : option (gmap string string);
}.

Definition Object_create (p : gmap string string) : StrObject :=
  {| own := ∅; proto := Some p |}.

(** [o.k]: own property first, then the prototype. *)
Definition obj_get (o : StrObject) (k : string) : option string :=
  match own o !! k with
  | Some v => Some v
  | None => proto o ≫= (λ p, p !! k)
  end.

(** [o.k = v] creates or overwrites an own property. *)
Definition obj_set (o : StrObject) (k v : string) : StrObject :=
  {| own := <[k := v]> (own o); proto := proto o |}.

(** [{ ...o }] copies the own enumerable properties only. *)
Definition obj_spread (o : StrObject) : gmap string string := own o.

End Js.

Import Js.

(* ===================================================================== *)
(** ** The Node.js platform seen by the launcher                          *)
(* ===================================================================== *)

Module Node.

(** Result of [paths(platform)] of the bundled git: the fields the
    launcher reads. *)
Record GitPaths : Type := {
  binPath : string;
  nativeDir : string;
}.

Inductive Stdio : Type := StdioPipe | StdioInherit | StdioIgnore.

(** Options object handed to [child_process.spawn]. *)
Record SpawnOptions : Type := {
  detached : bool;
  stdio : Stdio;
  env : gmap string string;
}.

(** The modules the launcher imports ([process], [os], [path], [glob],
    [fs], [get-port], [child_process], the git path table), over an
    abstract operating-system state. *)
Class Host : Type := {
  OS : Type;
  Buffer : Type;
  Logger : Type;
  process_platform : string;
  process_env : gmap string string;
  os_platform : string;
  path_delimiter : string;
  path_resolve : string → string → string;
  path_join : string → string → string;
  path_dirname : string → string;
  (** [glob.sync(pattern, { cwd })] *)
  glob_sync : string → string → OS → list string;
  fs_existsSync : string → OS → bool;
  (** [fs.mkdirSync(path)]: the new state, or the error it throws. *)
  fs_mkdirSync : string → OS → Completion unit * OS;
  (** the default export of get-port *)
  get_port : OS → Completion Z * OS;
  (** the operating system starting a file: the pid it assigns, if any *)
  os_spawn : string → list string → SpawnOptions → OS → option Z * OS;
  git_paths : string → GitPaths;
  buffer_toString : Buffer → string;
}.

Section World.
Context `{host : Host}.

(** A call on the log sink. *)
Inductive LogCall : Type :=
| LogStdout (log : Logger) (text : string)
| LogStderr (log : Logger) (text : string)
| LogInfo (log : Logger) (text : string).

(** A ['data'] listener of the shape used by the launcher: it turns the
    chunk into one call on a log sink. *)
Definition Listener : Type := Buffer → LogCall.

(** The [ChildProcess] object returned by [spawn]. *)
Record ChildProcess : Type := {
  pid : option Z;
  spawnfile : string;
  spawnargs : list string;
  spawnopts : SpawnOptions;
  stdout_on_data : list Listener;
  stderr_on_data : list Listener;
}.

(** Calls with an effect outside the launcher, in the order issued. *)
Inductive Call : Type :=
| CallGetPort
| CallMkdir (path : string)
| CallSpawn (file : string) (args : list string) (opts : SpawnOptions)
| CallLog (c : LogCall).

(** Operating-system state, the heap of child-process objects (a
    reference to one is its index) and the trace of calls. *)
Record World : Type := {
  os : OS;
  procs : list ChildProcess;
  trace : list Call;
}.

Definition Eff (A : Type) : Type := World → Completion A * World.

#[global] Instance eff_ret : MRet Eff := λ A a w, (Normal a, w).

#[global] Instance eff_bind : MBind Eff := λ A B f m w,
  match m w with
  | (Normal a, w') => f a w'
  | (Throw e, w') => (Throw e, w')
  end.

Definition throw {A} (e : JsError) : Eff A := λ w, (Throw e, w).

Definition record (c : Call) (w : World) : World :=
  {| os := os w; procs := procs w; trace := trace w ++ [c] |}.

Definition with_os (o : OS) (w : World) : World :=
  {| os := o; procs := procs w; trace := trace w |}.

(** Reads of the file system. *)
Definition glob (pattern cwd : string) : Eff (list string) :=
  λ w, (Normal (glob_sync pattern cwd (os w)), w).

Definition existsSync (path : string) : Eff bool :=
  λ w, (Normal (fs_existsSync path (os w)), w).

Definition mkdirSync (path : string) : Eff unit :=
  λ w, let '(r, o) := fs_mkdirSync path (os w) in
       (r, record (CallMkdir path) (with_os o w)).

Definition getPortPromise : Eff Z :=
  λ w, let '(r, o) := get_port (os w) in
       (r, record CallGetPort (with_os o w)).

(** [spawn(file, args, opts)]: allocates the child-process object and
    returns the reference to it. The call is taken to return normally,
    with both streams present, as [stdio: 'pipe'] gives them; likewise the
    listener registrations and the log sink below. *)
Definition spawn (file : string) (args : list string) (opts : SpawnOptions)
  : Eff nat :=
  λ w, let '(p, o) := os_spawn file args opts (os w) in
       let child := {| pid := p; spawnfile := file; spawnargs := args;
                       spawnopts := opts;
                       stdout_on_data := []; stderr_on_data := [] |} in
       (Normal (length (procs w)),
        {| os := o; procs := procs w ++ [child];
           trace := trace w ++ [CallSpawn file args opts] |}).

Definition add_stdout_listener (l : Listener) (c : ChildProcess) :=
  {| pid := pid c; spawnfile := spawnfile c; spawnargs := spawnargs c;
     spawnopts := spawnopts c;
     stdout_on_data := stdout_on_data c ++ [l];
     stderr_on_data := stderr_on_data c |}.

Definition add_stderr_listener (l : Listener) (c : ChildProcess) :=
  {| pid := pid c; spawnfile := spawnfile c; spawnargs := spawnargs c;
     spawnopts := spawnopts c;
     stdout_on_data := stdout_on_data c;
     stderr_on_data := stderr_on_data c ++ [l] |}.

Definition update_proc (p : nat) (f : ChildProcess → ChildProcess) : Eff unit :=
  λ w, (Normal (),
        {| os := os w; procs := alter f p (procs w); trace := trace w |}).

(** [p.stdout.on('data', l)] and [p.stderr.on('data', l)]. *)
Definition stdout_on (p : nat) (l : Listener) : Eff unit :=
  update_proc p (add_stdout_listener l).

Definition stderr_on (p : nat) (l : Listener) : Eff unit :=
  update_proc p (add_stderr_listener l).

(** [p.pid] *)
Definition pid_of (p : nat) : Eff (option Z) :=
  λ w, (Normal (procs w !! p ≫= pid), w).

Definition log_call (c : LogCall) : Eff unit :=
  λ w, (Normal (), record (CallLog c) w).

(** The stream delivering a chunk: every ['data'] listener runs, in
    registration order. *)
Definition emit (ls : list Listener) (data : Buffer) : list LogCall :=
  (λ l, l data) <$> ls.

End World.

End Node.

Import Node.

(* ===================================================================== *)
(** ** go_launcher.ts                                                     *)
(* ===================================================================== *)

Module GoLauncher.

(** The fields of [ServerOptions] read by the launcher. *)
Record LspOptions : Type := { detach : bool }.
Record SecurityOptions : Type := { installGoDependency : bool }.
Record ServerOptions : Type := {
  goPath : string;
  lsp : LspOptions;
  security : SecurityOptions;
}.

(** The constructor's fields ([loggerFactory] is not read by the methods
    modelled below). *)
Record GoServerLauncher : Type := {
  targetHost : string;
  options : ServerOptions;
  installationPath : string;
}.

Definition GO_LANG_DETACH_PORT : Z := 2091.

Section Methods.
Context `{host : Host}.

(** Modelled from the spec: the class [ExternalProgram] of
    ./process/external_program, of which only the constructor call is in
    the launcher; it "wraps a spawned OS process handle". The record keeps
    the three constructor arguments, the process by reference. *)
Record ExternalProgram : Type := {
  child : nat;
  program_options : ServerOptions;
  program_log : Logger;
}.

Definition getPort (self : GoServerLauncher) : Eff Z :=
  if negb (detach (lsp (options self))) then
    getPortPromise
  else
    mret GO_LANG_DETACH_PORT.

Definition getBundledGoToolchain (installationPath : string) (log : Logger)
  : Eff (option string) :=
  GoToolchain ← glob "**/go/**" installationPath;
  match GoToolchain with
  | [] => mret None
  | first :: _ => mret (Some (path_resolve installationPath first))
  end.

Definition launcherPattern : string :=
  if String.eqb process_platform "win32" then "go-langserver.exe"
  else "go-langserver".

(** The assignments made to [langserverRelatedEnv] for the bundled git
    (the [if (platform !== 'win32')] block of [spawnProcess]). *)
Definition gitEnv (platform : string) (git : GitPaths)
  (langserverRelatedEnv : gmap string string) : gmap string string :=
  if negb (String.eqb platform "win32") then
    let e := <["PREFIX" := nativeDir git]> langserverRelatedEnv in
    if String.eqb platform "linux" then
      <["GIT_SSL_CAINFO" := path_join (nativeDir git) "ssl/cacert.pem"]> e
    else e
  else langserverRelatedEnv.

Definition spawnProcess (self : GoServerLauncher) (port : Z) (log : Logger)
  : Eff ExternalProgram :=
  launchersFound ← glob launcherPattern (installationPath self);
  match launchersFound with
  | [] => throw (Error "Cannot find executable go language server")
  | launcher0 :: _ =>
    goToolchain ← getBundledGoToolchain (installationPath self) log;
    match goToolchain with
    | None | Some "" =>
        throw (Error "Cannot find go toolchain in bundle installation")
    | Some goToolchain =>
      let goRoot := goToolchain in
      let goHome := path_resolve goToolchain "bin" in
      let goPath := goPath (options self) in
      present ← existsSync goPath;
      (if negb present then mkdirSync goPath else mret ());;
      let goCache := path_resolve goPath ".cache" in
      let langserverRelatedEnv : gmap string string :=
        <["CGO_ENABLED" := "0"]>
          (<["GOCACHE" := goCache]>
            (<["GOPATH" := goPath]>
              (<["GOROOT" := goRoot]> ∅))) in
      (* Always prefer the bundled git. *)
      let platform := os_platform in
      let git := git_paths platform in
      let gitPath := path_dirname (binPath git) in
      let langserverRelatedEnv := gitEnv platform git langserverRelatedEnv in
      let params := ["-port=" +:+ num_toString port] in
      let golsp := path_resolve (installationPath self) launcher0 in
      let env := Object_create process_env in
      let env :=
        obj_set env "PATH"
          (gitPath +:+ path_delimiter +:+ goHome +:+ path_delimiter
             +:+ opt_toString (obj_get env "PATH")) in
      p ← spawn golsp params
            {| detached := false;
               stdio := StdioPipe;
               env := langserverRelatedEnv
                        ∪ <["CLIENT_PORT" := num_toString port]>
                            (<["CLIENT_HOST" := "127.0.0.1"]>
                               (obj_spread env)) |};
      stdout_on p (λ data, LogStdout log (buffer_toString data));;
      stderr_on p (λ data, LogStderr log (buffer_toString data));;
      pid ← pid_of p;
      log_call (LogInfo log
        ("Launch Go Language Server at port " +:+ num_toString port
           +:+ ", pid:" +:+ toString (from_option VNum VUndefined pid)
           +:+ ", GOROOT:" +:+ goRoot));;
      mret {| child := p; program_options := options self;
              program_log := log |}
    end
  end.

(** The two discovery errors. *)
Definition executableError : JsError :=
  Error "Cannot find executable go language server".

Definition toolchainError : JsError :=
  Error "Cannot find go toolchain in bundle installation".

(** The [env] option of the [spawn] call, as a function of the toolchain
    root found. *)
Definition launchEnv (self : GoServerLauncher) (port : Z) (goRoot : string)
  : gmap string string :=
  gitEnv os_platform (git_paths os_platform)
    (<["CGO_ENABLED" := "0"]>
       (<["GOCACHE" := path_resolve (goPath (options self)) ".cache"]>
          (<["GOPATH" := goPath (options self)]>
             (<["GOROOT" := goRoot]> ∅))))
  ∪ <["CLIENT_PORT" := num_toString port]>
      (<["CLIENT_HOST" := "127.0.0.1"]>
         {[ "PATH" :=
              path_dirname (binPath (git_paths os_platform))
                +:+ path_delimiter +:+ path_resolve goRoot "bin"
                +:+ path_delimiter
                +:+ opt_toString (process_env !! "PATH") ]}).

(** The calls issued for the cache directory. *)
Definition mkdirCalls (self : GoServerLauncher) (w : World) : list Call :=
  if fs_existsSync (goPath (options self)) (os w) then []
  else [CallMkdir (goPath (options self))].

End Methods.

End GoLauncher.

Import GoLauncher.

(* ===================================================================== *)
(** ** A reference POSIX host                                             *)
(* ===================================================================== *)

(** An instance of [Node.Host] on which the launcher can be run: the
    POSIX flavour of [path], a file system given by the list of the
    absolute paths that exist, and [glob] for patterns made of literal
    names and globstars (the two kinds the launcher passes). *)
Module Posix.

Definition slash : ascii := "/"%char.

(** [s.split('/')] *)
Fixpoint split_from (cur : string) (s : string) : list string :=
  match s with
  | EmptyString => [cur]
  | String c rest =>
      if Ascii.eqb c slash then cur :: split_from "" rest
      else split_from (cur +:+ String c "") rest
  end.

Definition split (s : string) : list string := split_from "" s.

Definition isAbsolute (p : string) : bool :=
  match p with
  | String c _ => Ascii.eqb c slash
  | EmptyString => false
  end.

Definition ends_with_slash (p : string) : bool :=
  match String.rev p with
  | String c _ => Ascii.eqb c slash
  | EmptyString => false
  end.

(** [normalizeString]: drops empty and [.] segments and lets [..] remove
    the segment before it; above the root [..] is dropped, or kept when
    [allowAboveRoot]. [done] holds the result so far, last segment
    first. *)
Fixpoint normalizeSegments (allowAboveRoot : bool) (done : list string)
  (segs : list string) : list string :=
  match segs with
  | [] => rev done
  | s :: rest =>
      if String.eqb s "" || String.eqb s "." then
        normalizeSegments allowAboveRoot done rest
      else if String.eqb s ".." then
        match done with
        | d :: done' =>
            if String.eqb d ".." then
              normalizeSegments allowAboveRoot (s :: done) rest
            else normalizeSegments allowAboveRoot done' rest
        | [] =>
            normalizeSegments allowAboveRoot
              (if allowAboveRoot then [s] else []) rest
        end
      else normalizeSegments allowAboveRoot (s :: done) rest
  end.

Definition unsplit (segs : list string) : string := String.concat "/" segs.

(** [path.posix.normalize] *)
Definition normalize (p : string) : string :=
  if String.eqb p "" then "."
  else
    let abs := isAbsolute p in
    let trailing := ends_with_slash p in
    let s := unsplit (normalizeSegments (negb abs) [] (split p)) in
    if String.eqb s "" then
      if abs then "/" else if trailing then "./" else "."
    else
      let s := if trailing then s +:+ "/" else s in
      if abs then "/" +:+ s else s.

(** [path.posix.join(a, b)] *)
Definition join (a b : string) : string :=
  if String.eqb a "" then
    if String.eqb b "" then "." else normalize b
  else if String.eqb b "" then normalize a
  else normalize (a +:+ "/" +:+ b).

(** [path.posix.resolve(a, b)] in a process whose working directory is
    [cwd] (an absolute path). *)
Definition resolve (cwd a b : string) : string :=
  let full :=
    if isAbsolute b then b
    else if isAbsolute a then a +:+ "/" +:+ b
    else cwd +:+ "/" +:+ a +:+ "/" +:+ b in
  "/" +:+ unsplit (normalizeSegments false [] (split full)).

Fixpoint drop_slashes (s : string) : string :=
  match s with
  | String c rest => if Ascii.eqb c slash then drop_slashes rest else s
  | EmptyString => s
  end.

Fixpoint drop_name (s : string) : string :=
  match s with
  | String c rest => if Ascii.eqb c slash then s else drop_name rest
  | EmptyString => s
  end.

(** [path.posix.dirname]: scanning from the end down to index 1, skip the
    trailing slashes, skip the last name, and cut at the slash found. *)
Definition dirname (p : string) : string :=
  match p with
  | EmptyString => "."
  | String c0 tl =>
      let hasRoot := Ascii.eqb c0 slash in
      match drop_name (drop_slashes (String.rev tl)) with
      | EmptyString => if hasRoot then "/" else "."
      | String _ before =>
          if hasRoot && String.eqb before "" then "//"
          else String c0 (String.rev before)
      end
  end.

(** A segment of a glob pattern. *)
Inductive Segment : Type :=
| Name (s : string)
| Globstar.

Definition parse_pattern (pattern : string) : list Segment :=
  (λ s, if String.eqb s "**" then Globstar else Name s) <$> split pattern.

Definition hidden (name : string) : bool :=
  match name with
  | String c _ => Ascii.eqb c "."%char
  | EmptyString => false
  end.

(** A globstar stands for zero or more directories, none of them a dot
    file. *)
Fixpoint glob_match (pat : list Segment) : list string → bool :=
  match pat with
  | [] => λ names, match names with [] => true | _ => false end
  | Name s :: pat' =>
      λ names,
        match names with
        | n :: names' => String.eqb s n && glob_match pat' names'
        | [] => false
        end
  | Globstar :: pat' =>
      fix skip (names : list string) : bool :=
        glob_match pat' names
        || match names with
           | n :: names' => negb (hidden n) && skip names'
           | [] => false
           end
  end.

(** The path [p] relative to the directory [dir], when below it. *)
Definition relative_to (dir p : string) : option string :=
  let d := if String.eqb dir "/" then dir else dir +:+ "/" in
  if String.prefix d p && negb (String.eqb d p) then
    Some (String.substring (String.length d)
            (String.length p - String.length d) p)
  else None.

Record State : Type := {
  files : list string;        (* the absolute paths that exist *)
  port_supply : list Z;       (* the free ports the system will answer *)
  next_pid : Z;
}.

(** [glob.sync(pattern, { cwd })]: the matches below [cwd], relative to
    it, sorted (by character code, which is glob's order on the
    lower-case names used below). *)
Definition globSync (wd : string) (pattern cwd : string) (st : State)
  : list string :=
  let root := resolve wd cwd "" in
  let below := omap (relative_to root) (files st) in
  merge_sort (String.le)
    (remove_dups
       (filter (λ p, Is_true (glob_match (parse_pattern pattern) (split p)))
               below)).

Definition exists_at (wd : string) (p : string) (st : State) : bool :=
  bool_decide (resolve wd p "" ∈ files st).

Definition mkdir_at (wd : string) (p : string) (st : State)
  : Completion unit * State :=
  let target := resolve wd p "" in
  if bool_decide (target ∈ files st) then
    (Throw (Error ("EEXIST: file already exists, mkdir '" +:+ p +:+ "'")), st)
  else if bool_decide (dirname target ∈ "/" :: files st) then
    (Normal (),
     {| files := files st ++ [target]; port_supply := port_supply st;
        next_pid := next_pid st |})
  else
    (Throw (Error ("ENOENT: no such file or directory, mkdir '" +:+ p +:+ "'")),
     st).

Definition next_free_port (st : State) : Completion Z * State :=
  match port_supply st with
  | p :: rest =>
      (Normal p,
       {| files := files st; port_supply := rest; next_pid := next_pid st |})
  | [] => (Throw (Error "No available ports found"), st)
  end.

Definition start_file (file : string) (args : list string) (opts : SpawnOptions)
  (st : State) : option Z * State :=
  if bool_decide (file ∈ files st) then
    (Some (next_pid st),
     {| files := files st; port_supply := port_supply st;
        next_pid := next_pid st + 1 |})
  else (None, st).

(** A Linux host with working directory [wd] and environment [penv]; the
    bundled git lives under [gitRoot]. Chunks are already text and log
    sinks are named. *)
Definition host (wd : string) (penv : gmap string string) (gitRoot : string)
  : Host :=
  {| OS := State;
     Buffer := string;
     Logger := string;
     process_platform := "linux";
     process_env := penv;
     os_platform := "linux";
     path_delimiter := ":";
     path_resolve := resolve wd;
     path_join := join;
     path_dirname := dirname;
     glob_sync := globSync wd;
     fs_existsSync := exists_at wd;
     fs_mkdirSync := mkdir_at wd;
     get_port := next_free_port;
     os_spawn := start_file;
     git_paths := λ _, {| binPath := gitRoot +:+ "/bin/git";
                          nativeDir := gitRoot |};
     buffer_toString := λ s, s |}.

End Posix.

(* ===================================================================== *)
(** ** The expression render handler                                      *)
(* ===================================================================== *)

Module ExpressionRenderer.

(** A call a renderer makes on the handlers object it was given. *)
Inductive HandlerCall : Type :=
| CallOnDestroy (fn : Value)
| CallDone
| CallReload
| CallUpdate (params : Value)
| CallEvent (data : Value).

Definition handler_name (c : HandlerCall) : string :=
  match c with
  | CallOnDestroy _ => "onDestroy"
  | CallDone => "done"
  | CallReload => "reload"
  | CallUpdate _ => "update"
  | CallEvent _ => "event"
  end.

Section Handler.
Context {Element : Type}.

(** A registered renderer, seen from the handler: the calls its [render]
    makes on the handlers before it returns, and whether it then
    throws. *)
Record Renderer : Type := {
  renderer_render : Element → Value → list HandlerCall * Completion unit;
}.

(** The private fields of [ExpressionRenderHandler], what its three
    subjects have emitted so far (oldest first), and the renderer
    invocations made ([data.as] and [data.value] of each). *)
Record ExpressionRenderHandler : Type := {
  element : Element;
  destroyFn : option Value;
  renderCount : Z;
  render_emitted : list Z;
  update_emitted : list Value;
  events_emitted : list Value;
  invoked : list (Value * Value);
}.

(** [new ExpressionRenderHandler(element)] *)
Definition new_handler (el : Element) : ExpressionRenderHandler :=
  {| element := el; destroyFn := None; renderCount := 0;
     render_emitted := []; update_emitted := []; events_emitted := [];
     invoked := [] |}.

(** One of [this.handlers], applied. *)
Definition run_handler (c : HandlerCall) (h : ExpressionRenderHandler)
  : ExpressionRenderHandler :=
  match c with
  | CallOnDestroy fn =>
      {| element := element h; destroyFn := Some fn;
         renderCount := renderCount h;
         render_emitted := render_emitted h;
         update_emitted := update_emitted h;
         events_emitted := events_emitted h; invoked := invoked h |}
  | CallDone =>
      {| element := element h; destroyFn := destroyFn h;
         renderCount := renderCount h + 1;
         render_emitted := render_emitted h ++ [renderCount h + 1];
         update_emitted := update_emitted h;
         events_emitted := events_emitted h; invoked := invoked h |}
  | CallReload =>
      {| element := element h; destroyFn := destroyFn h;
         renderCount := renderCount h;
         render_emitted := render_emitted h;
         update_emitted := update_emitted h ++ [VNull];
         events_emitted := events_emitted h; invoked := invoked h |}
  | CallUpdate params =>
      {| element := element h; destroyFn := destroyFn h;
         renderCount := renderCount h;
         render_emitted := render_emitted h;
         update_emitted := update_emitted h ++ [params];
         events_emitted := events_emitted h; invoked := invoked h |}
  | CallEvent data =>
      {| element := element h; destroyFn := destroyFn h;
         renderCount := renderCount h;
         render_emitted := render_emitted h;
         update_emitted := update_emitted h;
         events_emitted := events_emitted h ++ [data]; invoked := invoked h |}
  end.

(** A call on [{ ...this.handlers, ...extraHandlers }]: a name that
    [extraHandlers] defines goes to the caller's function and leaves the
    handler alone. *)
Definition run_call (extraHandlers : list string) (c : HandlerCall)
  (h : ExpressionRenderHandler) : ExpressionRenderHandler :=
  if bool_decide (handler_name c ∈ extraHandlers) then h
  else run_handler c h.

Definition note_invocation (id value : Value) (h : ExpressionRenderHandler)
  : ExpressionRenderHandler :=
  {| element := element h; destroyFn := destroyFn h;
     renderCount := renderCount h;
     render_emitted := render_emitted h;
     update_emitted := update_emitted h;
     events_emitted := events_emitted h;
     invoked := invoked h ++ [(id, value)] |}.

Section Render.
(** [getRenderersRegistry().get(id)]: the renderer, or [None] for the
    falsy answer. The registry is in ./services. *)
Variable registry_get : Value → option Renderer.

(** [render(data, extraHandlers)]. The result is the state of the
    returned promise when [render] returns: rejected ([Throw]), resolved
    with the first value emitted on [render$] since the subscription
    ([Normal (Some n)]), or still pending ([Normal None]). *)
Definition render (self : ExpressionRenderHandler) (data : Value)
  (extraHandlers : list string)
  : Completion (option Z) * ExpressionRenderHandler :=
  if negb (truthy data)
     || negb (strict_eq_str (get "type" data) "render")
     || negb (truthy (get "as" data)) then
    (Throw (Error "invalid data provided to expression renderer"), self)
  else
    match registry_get (get "as" data) with
    | None =>
        (Throw (Error ("invalid renderer id '" +:+ toString (get "as" data)
                         +:+ "'")), self)
    | Some renderer =>
        let subscribed_at := length (render_emitted self) in
        let '(calls, outcome) :=
          renderer_render renderer (element self) (get "value" data) in
        let self' :=
          foldl (λ h c, run_call extraHandlers c h)
                (note_invocation (get "as" data) (get "value" data) self)
                calls in
        match outcome with
        | Throw e => (Throw e, self')
        | Normal _ => (Normal (render_emitted self' !! subscribed_at), self')
        end
    end.

End Render.

Definition invalidDataError : JsError :=
  Error "invalid data provided to expression renderer".

(** Data that passes the first check of [render]. *)
Definition renderable (data : Value) : Prop :=
  truthy data = true
  ∧ strict_eq_str (get "type" data) "render" = true
  ∧ truthy (get "as" data) = true.

End Handler.

End ExpressionRenderer.

(* ===================================================================== *)
(** ** The events-over-time query                                         *)
(* ===================================================================== *)

Module EventsOverTime.

(** The fields of [RequestBasicOptions] that the builder destructures. *)
Record Timerange : Type := {
  from : Value;
  timezone : Value;
  to : Value;
}.

Record SourceFields : Type := { timestamp : string }.
Record SourceConfiguration : Type := { fields : SourceFields }.

Record RequestBasicOptions : Type := {
  filterQuery : Value;
  timerange : Timerange;
  defaultIndex : Value;
  sourceConfiguration : SourceConfiguration;
}.

(** [a && b] *)
Definition js_and (a b : Value) : Value := if truthy a then b else a.

Section Builder.
(** The two helpers imported from ../../utils/build_query. *)
Variable createQueryFilterClauses : Value → list Value.
Variable calculateTimeseriesInterval : Value → Value → Value → Value.

Definition getHistogramAggregation (from to : Value) : Value :=
  let minIntervalSeconds := VNum 10 in
  let interval := calculateTimeseriesInterval from to minIntervalSeconds in
  let histogramTimestampField := VStr "@timestamp" in
  let dateHistogram :=
    VObj [("date_histogram",
           VObj [("field", histogramTimestampField);
                 ("fixed_interval", VStr (toString interval +:+ "s"))])] in
  let autoDateHistogram :=
    VObj [("auto_date_histogram",
           VObj [("field", histogramTimestampField);
                 ("buckets", VNum 36)])] in
  VObj [("eventActionGroup",
         VObj [("terms",
                VObj [("field", VStr "event.action");
                      ("missing", VStr "All others");
                      ("order", VObj [("_count", VStr "desc")]);
                      ("size", VNum 10)]);
               ("aggs",
                VObj [("events",
                       if truthy interval then dateHistogram
                       else autoDateHistogram)])])].

Definition buildEventsOverTimeQuery (opts : RequestBasicOptions) : Value :=
  let from := from (timerange opts) in
  let timezone := timezone (timerange opts) in
  let to := to (timerange opts) in
  let timestamp := timestamp (fields (sourceConfiguration opts)) in
  let filter :=
    (createQueryFilterClauses (filterQuery opts)
     ++ [VObj [("range",
                VObj [(timestamp,
                       VObj ([("gte", from); ("lte", to)]
                             ++ spread_props
                                  (js_and timezone
                                     (VObj [("time_zone", timezone)]))))])]])%list
  in
  let dslQuery :=
    VObj [("index", defaultIndex opts);
          ("allowNoIndices", VBool true);
          ("ignoreUnavailable", VBool true);
          ("body",
           VObj [("aggregations", getHistogramAggregation from to);
                 ("query", VObj [("bool", VObj [("filter", VArr filter)])]);
                 ("size", VNum 0);
                 ("track_total_hits", VBool true)])] in
  dslQuery.

End Builder.

End EventsOverTime.

(* ===================================================================== *)
(** ** Concrete installations                                             *)
(* ===================================================================== *)

(** Launchers, hosts and worlds on which the statements below are run. *)
Module Scenario.

Definition linux : Host :=
  Posix.host "/srv/kibana"
    {[ "PATH" := "/usr/bin:/bin"; "HOME" := "/home/kibana" ]}
    "/srv/kibana/node_modules/git/native".

Definition server_options (detached_lsp : bool) : ServerOptions :=
  {| goPath := "/var/lib/kibana/gopath";
     lsp := {| detach := detached_lsp |};
     security := {| installGoDependency := false |} |}.

(** The launcher installed under /opt/lsp. *)
Definition launcher (detached_lsp : bool) : GoServerLauncher :=
  {| targetHost := "127.0.0.1";
     options := server_options detached_lsp;
     installationPath := "/opt/lsp" |}.

Definition world_of (paths : list string) : @World linux :=
  {| os := ({| Posix.files := paths;
               Posix.port_supply := [50123; 50124];
               Posix.next_pid := 4242 |} : @OS linux);
     procs := [];
     trace := [] |}.

Definition base_dirs : list string :=
  ["/opt"; "/opt/lsp"; "/var"; "/var/lib"; "/var/lib/kibana"].

(** /opt/lsp with go-langserver at its root and sdk/go/bin present. *)
Definition complete : @World linux :=
  world_of (base_dirs ++ ["/opt/lsp/go-langserver"; "/opt/lsp/sdk";
                          "/opt/lsp/sdk/go"; "/opt/lsp/sdk/go/bin"]).

(** The same, the cache directory already there. *)
Definition complete_cached : @World linux :=
  world_of (base_dirs ++ ["/opt/lsp/go-langserver"; "/opt/lsp/sdk";
                          "/opt/lsp/sdk/go"; "/opt/lsp/sdk/go/bin";
                          "/var/lib/kibana/gopath"]).

(** The toolchain without the executable. *)
Definition no_executable : @World linux :=
  world_of (base_dirs ++ ["/opt/lsp/sdk"; "/opt/lsp/sdk/go";
                          "/opt/lsp/sdk/go/bin"]).

(** The executable without the toolchain. *)
Definition no_toolchain : @World linux :=
  world_of (base_dirs ++ ["/opt/lsp/go-langserver"]).

(** Neither of them. *)
Definition bare : @World linux := world_of base_dirs.

Import ExpressionRenderer.

(** A renderer that reports completion at once. *)
Definition markdown : @Renderer string :=
  {| renderer_render := λ _ _, ([CallDone], Normal ()) |}.

(** A registry holding that renderer alone. *)
Definition markdown_only (id : Value) : option (@Renderer string) :=
  if strict_eq_str id "markdown" then Some markdown else None.

Definition pie_chart : Value :=
  VObj [("type", VStr "render"); ("as", VStr "pie"); ("value", VNum 3)].

(** Data of type 'render' whose 'as' is the empty string. *)
Definition empty_as : Value :=
  VObj [("type", VStr "render"); ("as", VStr ""); ("value", VNum 3)].

Definition markdown_text : Value :=
  VObj [("type", VStr "render"); ("as", VStr "markdown");
        ("value", VStr "# title")].

Import EventsOverTime.

(** A request over one day. *)
Definition last_day : RequestBasicOptions :=
  {| filterQuery := VUndefined;
     timerange := {| from := VNum 1577836800000; timezone := VUndefined;
                     to := VNum 1577923200000 |};
     defaultIndex := VArr [VStr "auditbeat-*"];
     sourceConfiguration := {| fields := {| timestamp := "@timestamp" |} |} |}.

End Scenario.

(* ===================================================================== *)
(** ** Scripts of awaited calls                                           *)
(* ===================================================================== *)

(** Methods that do nothing but call collaborators in sequence are kept
    as scripts over the history of calls made so far. Whether an awaited
    call rejects is decided by the collaborators, that is, by a function
    of the history that ends with that call. *)
Module Script.

Section Script.
Context {Call : Type}.

Definition Oracle : Type := list Call → Completion unit.

Definition Script (A : Type) : Type :=
  Oracle → list Call → Completion A * list Call.

#[global] Instance script_ret : MRet Script := λ A a _ h, (Normal a, h).

#[global] Instance script_bind : MBind Script := λ A B f m o h,
  match m o h with
  | (Normal a, h') => f a o h'
  | (Throw e, h') => (Throw e, h')
  end.

(** A call that returns normally (logging, dispatching, tracking). *)
Definition perform (c : Call) : Script unit :=
  λ _ h, (Normal (), h ++ [c]).

(** [await c]: a call whose promise may reject. *)
Definition await (c : Call) : Script unit :=
  λ o h, (o (h ++ [c]), h ++ [c]).

(** [try { m } catch (error) { handler(error) }] *)
Definition try_catch {A} (m : Script A) (handler : JsError → Script A)
  : Script A :=
  λ o h,
    match m o h with
    | (Throw error, h') => handler error o h'
    | (Normal a, h') => (Normal a, h')
    end.

(** [for (const x of xs) { body(x) }] *)
Fixpoint for_of {A} (xs : list A) (body : A → Script unit) : Script unit :=
  match xs with
  | [] => mret ()
  | x :: rest => body x;; for_of rest body
  end.

End Script.

Arguments Script : clear implicits.
Arguments Oracle : clear implicits.

End Script.

Import Script.

(* ===================================================================== *)
(** ** ml_popover.tsx                                                     *)
(* ===================================================================== *)

Module MlPopover.

(** The fields of [SiemJob] that the popover reads. *)
Record SiemJob : Type := {
  id : string;
  moduleId : string;
  defaultIndexPattern : string;
  groups : list string;
  isInstalled : bool;
  isElasticJob : bool;
  isCompatible : bool;
}.

(** The members of [METRIC_TYPE], [TELEMETRY_EVENT] and of the
    translations that the popover names; their values live in
    ../../lib/track_usage and ./translations. *)
Inductive MetricType : Type := COUNT.

Inductive TelemetryEvent : Type :=
| SIEM_JOB_ENABLED
| SIEM_JOB_DISABLED
| CUSTOM_JOB_ENABLED
| CUSTOM_JOB_DISABLED
| JOB_ENABLE_FAILURE
| JOB_DISABLE_FAILURE.

Inductive ToastTitle : Type :=
| CREATE_JOB_FAILURE
| START_JOB_FAILURE
| STOP_JOB_FAILURE.

(** Argument objects of [setupMlJob], [startDatafeeds], [stopDatafeeds]. *)
Record SetupMlJobArgs : Type := {
  configTemplate : string;
  indexPatternName : string;
  jobIdErrorFilter : list string;
  setup_groups : list string;
  setup_kbnVersion : string;
}.

Record StartDatafeedsArgs : Type := {
  start_datafeedIds : list string;
  start_kbnVersion : string;
  start : Z;
}.

Record StopDatafeedsArgs : Type := {
  stop_datafeedIds : list string;
  stop_kbnVersion : string;
}.

Section Popover.
Context {JobSummary : Type}.

Record State : Type := {
  isLoading : bool;
  jobs : list JobSummary;
  refreshToggle : bool;
}.

(** The four actions, and an action of any other type. *)
Inductive Action : Type :=
| Refresh
| Loading
| Success (results : list JobSummary)
| Failure
| OtherAction.

Definition mlPopoverReducer (state : State) (action : Action) : State :=
  match action with
  | Refresh =>
      {| isLoading := isLoading state; jobs := jobs state;
         refreshToggle := negb (refreshToggle state) |}
  | Loading =>
      {| isLoading := true; jobs := jobs state;
         refreshToggle := refreshToggle state |}
  | Success results =>
      {| isLoading := false; jobs := results;
         refreshToggle := refreshToggle state |}
  | Failure =>
      {| isLoading := false; jobs := [];
         refreshToggle := refreshToggle state |}
  | OtherAction => state
  end.

Definition initialState : State :=
  {| isLoading := false; jobs := []; refreshToggle := true |}.

(** The calls [enableDatafeed] makes on its collaborators. *)
Inductive PopoverCall : Type :=
| Track (metric : MetricType) (event : TelemetryEvent)
| SetupMlJob (args : SetupMlJobArgs)
| StartDatafeeds (args : StartDatafeedsArgs)
| StopDatafeeds (args : StopDatafeedsArgs)
| ErrorToToaster (title : ToastTitle) (error : JsError)
| Dispatch (action : Action).

Definition submitTelemetry (job : SiemJob) (enabled : bool)
  : Script PopoverCall unit :=
  perform
    (Track COUNT
       (if isElasticJob job then
          if enabled then SIEM_JOB_ENABLED else SIEM_JOB_DISABLED
        else
          if enabled then CUSTOM_JOB_ENABLED else CUSTOM_JOB_DISABLED)).

(** [moment.utc().subtract(14, 'days').valueOf()], the clock reading
    [now] in milliseconds. *)
Definition twoWeeksBefore (now : Z) : Z := now - 14 * 86400000.

(** [enableDatafeed(job, latestTimestampMs, enable)], in a component
    rendered with [kbnVersion], the clock reading [now] when the start
    time is computed. The [return] inside the first [catch] is the
    [false] handed to [proceed]. *)
Definition enableDatafeed (kbnVersion : string) (now : Z) (job : SiemJob)
  (latestTimestampMs : Z) (enable : bool) : Script PopoverCall unit :=
  submitTelemetry job enable;;
  proceed ←
    (if negb (isInstalled job) then
       try_catch
         (await (SetupMlJob
                   {| configTemplate := moduleId job;
                      indexPatternName := defaultIndexPattern job;
                      jobIdErrorFilter := [id job];
                      setup_groups := groups job;
                      setup_kbnVersion := kbnVersion |});;
          mret true)
         (λ error,
            perform (ErrorToToaster CREATE_JOB_FAILURE error);;
            perform (Dispatch Refresh);;
            mret false)
     else mret true);
  if negb proceed then mret ()
  else
    (* Max start time for job is no more than two weeks ago *)
    let maxStartTime := twoWeeksBefore now in
    (if enable then
       let startTime := Z.max latestTimestampMs maxStartTime in
       try_catch
         (await (StartDatafeeds
                   {| start_datafeedIds := ["datafeed-" +:+ id job];
                      start_kbnVersion := kbnVersion;
                      start := startTime |}))
         (λ error,
            perform (Track COUNT JOB_ENABLE_FAILURE);;
            perform (ErrorToToaster START_JOB_FAILURE error))
     else
       try_catch
         (await (StopDatafeeds
                   {| stop_datafeedIds := ["datafeed-" +:+ id job];
                      stop_kbnVersion := kbnVersion |}))
         (λ error,
            perform (Track COUNT JOB_DISABLE_FAILURE);;
            perform (ErrorToToaster STOP_JOB_FAILURE error)));;
    perform (Dispatch Refresh).

(** The actions dispatched by a list of calls, and the reducer state
    after them ([useReducer]). *)
Definition dispatched (calls : list PopoverCall) : list Action :=
  omap (λ c, match c with Dispatch a => Some a | _ => None end) calls.

Definition reduce (state : State) (actions : list Action) : State :=
  foldl mlPopoverReducer state actions.

End Popover.


End MlPopover.

(* ===================================================================== *)
(** ** server.ts                                                          *)
(* ===================================================================== *)

Module CoreServer.

(** A JavaScript [Map]: its entries in insertion order, keys distinct. *)
Section JsMap.
Context {K V : Type} `{EqDecision K}.

(** [m.set(k, v)]: a present key keeps its place and takes the value. *)
Fixpoint map_set (k : K) (v : V) (m : list (K * V)) : list (K * V) :=
  match m with
  | [] => [(k, v)]
  | (k', v') :: rest =>
      if decide (k = k') then (k, v) :: rest
      else (k', v') :: map_set k v rest
  end.

(** [new Map(entries)] *)
Definition Map_of (entries : list (K * V)) : list (K * V) :=
  foldl (λ m kv, map_set kv.1 kv.2 m) [] entries.

(** [m.get(k)] *)
Fixpoint map_get (k : K) (m : list (K * V)) : option V :=
  match m with
  | [] => None
  | (k', v) :: rest => if decide (k = k') then Some v else map_get k rest
  end.

(** [[...m.keys()]] *)
Definition map_keys (m : list (K * V)) : list K := m.*1.

End JsMap.

(** The [pluginDependencies] handed to [context.setup] by [setup]. *)
Definition contextPluginDependencies {K} `{EqDecision K} (legacyId : K)
  (pluginDependencies : list (K * list K)) : list (K * list K) :=
  Map_of (pluginDependencies ++ [(legacyId, map_keys pluginDependencies)]).

Inductive Service : Type :=
| Legacy
| Plugins
| SavedObjects
| Elasticsearch
| Http.

Section Server.
Context {ConfigPath Schema : Type}.

(** What ./config, ./elasticsearch, ... export as [config]. *)
Record ConfigDescriptor : Type := {
  path : ConfigPath;
  schema : Schema;
}.

Inductive ServerCall : Type :=
| LogDebug (message : string)
| StopService (s : Service)
| SetSchema (p : ConfigPath) (s : Schema).

Definition stop : Script ServerCall unit :=
  perform (LogDebug "stopping server");;
  await (StopService Legacy);;
  await (StopService Plugins);;
  await (StopService SavedObjects);;
  await (StopService Elasticsearch);;
  await (StopService Http).

Section Schemas.
Variables elasticsearchConfig loggingConfig httpConfig pluginsConfig
  devConfig kibanaConfig savedObjectsConfig uiSettingsConfig
  : ConfigDescriptor.

Definition schemas : list (ConfigPath * Schema) :=
  [(path elasticsearchConfig, schema elasticsearchConfig);
   (path loggingConfig, schema loggingConfig);
   (path httpConfig, schema httpConfig);
   (path pluginsConfig, schema pluginsConfig);
   (path devConfig, schema devConfig);
   (path kibanaConfig, schema kibanaConfig);
   (path savedObjectsConfig, schema savedObjectsConfig);
   (path uiSettingsConfig, schema uiSettingsConfig)].

Definition setupConfigSchemas : Script ServerCall unit :=
  for_of schemas (λ ps, await (SetSchema ps.1 ps.2)).

End Schemas.
End Server.

End CoreServer.

(* ===================================================================== *)
(** ** The rest of the expression render handler                          *)
(* ===================================================================== *)

Module ExpressionHandle.
Import ExpressionRenderer.

Section Handle.
Context {Element : Type}.

(** [destroy()]: the value it calls, if it calls one. *)
Definition destroy (self : @ExpressionRenderHandler Element) : option Value :=
  match destroyFn self with
  | Some fn => if truthy fn then Some fn else None
  | None => None
  end.

Definition getElement (self : @ExpressionRenderHandler Element) : Element :=
  element self.

Section Registry.
Variable registry_get : Value → option (@Renderer Element).

(** The exported [render(element, data)]: the promise of
    [handler.render(data)] is dropped, rejected or not. *)
Definition render_into (el : Element) (data : Value)
  : @ExpressionRenderHandler Element :=
  let handler := new_handler el in
  snd (render registry_get handler data []).

(** Successive [handler.render(data, extraHandlers)] calls. *)
Definition render_all (self : @ExpressionRenderHandler Element)
  (requests : list (Value * list string)) : @ExpressionRenderHandler Element :=
  foldl (λ h r, snd (render registry_get h r.1 r.2)) self requests.

End Registry.
End Handle.

End ExpressionHandle.

(* ===================================================================== *)
(** ** Concrete jobs, plugins and renderers                               *)
(* ===================================================================== *)

Module Samples.
Import MlPopover CoreServer ExpressionRenderer.

Definition rare_process : SiemJob :=
  {| id := "rare_process_by_host_linux_ecs";
     moduleId := "siem_auditbeat";
     defaultIndexPattern := "auditbeat-*";
     groups := ["siem"; "auditbeat"];
     isInstalled := false;
     isElasticJob := true;
     isCompatible := true |}.

(** Collaborators whose [setupMlJob] rejects and whose other calls
    resolve. *)
Definition setup_rejects : Oracle (@PopoverCall string) :=
  λ history,
    match last history with
    | Some (SetupMlJob _) => Throw (Error "Not Found")
    | _ => Normal ()
    end.

(** Three discovered plugins with their dependencies. *)
Definition discovered : list (string * list string) :=
  [("data", []); ("embeddable", ["data"]); ("siem", ["data"; "embeddable"])].

(** A renderer that registers two clean-up functions and reports
    completion in between. *)
Definition with_cleanup : @Renderer string :=
  {| renderer_render := λ _ _,
       ([CallOnDestroy (VObj [("name", VStr "first")]);
         CallDone;
         CallOnDestroy (VObj [("name", VStr "second")])],
        Normal ()) |}.

Definition two_renderers (id : Value) : option (@Renderer string) :=
  if strict_eq_str id "markdown" then Some Scenario.markdown
  else if strict_eq_str id "chart" then Some with_cleanup
  else None.

Definition chart : Value :=
  VObj [("type", VStr "render"); ("as", VStr "chart"); ("value", VNum 7)].

(** /opt/lsp complete, but no parent directory for the cache path. *)
Definition no_cache_parent : @World Scenario.linux :=
  Scenario.world_of
    ["/opt"; "/opt/lsp"; "/opt/lsp/go-langserver"; "/opt/lsp/sdk";
     "/opt/lsp/sdk/go"; "/opt/lsp/sdk/go/bin"].

End Samples.

(* ===================================================================== *)
(** ** The reference host against Node's documented answers               *)
(* ===================================================================== *)

Section PosixExamples.
Import Posix.

Example resolve_relative :
  resolve "/home/myself/node" "/foo/bar" "./baz" = "/foo/bar/baz".
Proof. reflexivity. Qed.

Example resolve_absolute_wins :
  resolve "/home/myself/node" "/foo/bar" "/tmp/file/" = "/tmp/file".
Proof. reflexivity. Qed.

Example resolve_from_cwd :
  resolve "/home/myself/node" "wwwroot" "../gif/image.gif"
  = "/home/myself/node/gif/image.gif".
Proof. reflexivity. Qed.

Example normalize_dots :
  normalize "/foo/bar//baz/asdf/quux/.." = "/foo/bar/baz/asdf".
Proof. reflexivity. Qed.

Example join_dots : join "/foo/bar" "baz/asdf/../quux" = "/foo/bar/baz/quux".
Proof. reflexivity. Qed.

Example dirname_nested :
  dirname "/foo/bar/baz/asdf/quux" = "/foo/bar/baz/asdf".
Proof. reflexivity. Qed.

Example dirname_of_root_entry : dirname "/foo" = "/".
Proof. reflexivity. Qed.

Example dirname_of_name : dirname "foo" = ".".
Proof. reflexivity. Qed.

(** [path.resolve] answers an absolute path, never the empty string. *)
Lemma resolve_absolute cwd a b : isAbsolute (resolve cwd a b) = true.
Proof. reflexivity. Qed.

Lemma resolve_nonempty cwd a b : resolve cwd a b ≠ "".
Proof. unfold resolve. discriminate. Qed.

(** A globstar matches the directory itself and everything below it. *)
Example globstar_matches :
  glob_match (parse_pattern "**/go/**") ["sdk"; "go"] = true
  ∧ glob_match (parse_pattern "**/go/**") ["sdk"; "go"; "bin"; "gofmt"] = true
  ∧ glob_match (parse_pattern "**/go/**") ["go"] = true
  ∧ glob_match (parse_pattern "**/go/**") ["sdk"; "golang"] = false
  ∧ glob_match (parse_pattern "**/go/**") [".cache"; "go"] = false.
Proof. repeat split. Qed.

End PosixExamples.

(* ===================================================================== *)
(** ** Properties of the Go launcher                                      *)
(* ===================================================================== *)

(** Unfolds one run of the launcher down to the host's operations. *)
Ltac run :=
  unfold spawnProcess, getBundledGoToolchain, glob, existsSync, mkdirSync,
    spawn, stdout_on, stderr_on, update_proc, pid_of, log_call, throw,
    record, with_os;
  unfold mbind, eff_bind, mret, eff_ret; simpl.

Section LauncherFacts.
Context `{host : Host}.

Lemma alter_last {A} (f : A → A) (l : list A) (x : A) :
  alter f (length l) (l ++ [x]) = l ++ [f x].
Proof.
  induction l as [|y l IH]; simpl; [reflexivity|].
  f_equal. exact IH.
Qed.

Lemma lookup_last {A} (l : list A) (x : A) :
  (l ++ [x]) !! length l = Some x.
Proof. induction l as [|y l IH]; simpl; auto. Qed.

(** Reading a property through the prototype of a fresh object. *)
Lemma obj_get_inherited (p : gmap string string) (k : string) :
  obj_get (Object_create p) k = p !! k.
Proof. unfold obj_get, Object_create. simpl. rewrite lookup_empty. reflexivity. Qed.

(** After the discovery and the cache directory: the [spawn] call and
    what follows it. *)
Ltac finish_launch :=
  match goal with
  | |- context [os_spawn ?f ?a ?o ?s] =>
      destruct (os_spawn f a o s) as [p o'] eqn:Hs
  end;
  simpl; rewrite !alter_last; simpl;
  intros [= <- <-]; simpl;
  do 5 eexists;
  split_and!; try reflexivity;
  [ match goal with H : path_resolve _ _ = String _ _ |- _ => rewrite H end;
    discriminate
  | match goal with H : path_resolve _ _ = String _ _ |- _ => rewrite H end;
    reflexivity
  | eexists; rewrite <- ?app_assoc; reflexivity ].

(** The first check of [spawnProcess]. *)
Lemma spawnProcess_without_executable self port log (w : World) :
  glob_sync launcherPattern (installationPath self) (os w) = [] →
  spawnProcess self port log w = (Throw executableError, w).
Proof. intros Hnone. run. rewrite Hnone. reflexivity. Qed.

(** The second check of [spawnProcess]. *)
Lemma spawnProcess_without_toolchain self port log (w : World) e le :
  glob_sync launcherPattern (installationPath self) (os w) = e :: le →
  glob_sync "**/go/**" (installationPath self) (os w) = [] →
  spawnProcess self port log w = (Throw toolchainError, w).
Proof. intros Hexe Hnone. run. rewrite Hexe, Hnone. reflexivity. Qed.

(** Shape of every successful launch. *)
Lemma spawnProcess_success self port log w prog w' :
  spawnProcess self port log w = (Normal prog, w') →
  ∃ e le t lt c,
    glob_sync launcherPattern (installationPath self) (os w) = e :: le
    ∧ glob_sync "**/go/**" (installationPath self) (os w) = t :: lt
    ∧ path_resolve (installationPath self) t ≠ ""
    ∧ procs w' = procs w ++ [c]
    ∧ child prog = length (procs w)
    ∧ program_options prog = options self
    ∧ program_log prog = log
    ∧ spawnfile c = path_resolve (installationPath self) e
    ∧ spawnargs c = ["-port=" +:+ num_toString port]
    ∧ spawnopts c =
        {| detached := false; stdio := StdioPipe;
           env := launchEnv self port
                    (path_resolve (installationPath self) t) |}
    ∧ stdout_on_data c = [λ data, LogStdout log (buffer_toString data)]
    ∧ stderr_on_data c = [λ data, LogStderr log (buffer_toString data)]
    ∧ ∃ info,
        trace w' =
          trace w ++ mkdirCalls self w
            ++ [CallSpawn (spawnfile c) (spawnargs c) (spawnopts c);
                CallLog (LogInfo log info)].
Proof.
  unfold mkdirCalls. run. rewrite obj_get_inherited.
  destruct (glob_sync launcherPattern _ _) as [|e le] eqn:He; [discriminate|].
  destruct (glob_sync "**/go/**" _ _) as [|t lt] eqn:Ht; [discriminate|].
  destruct (path_resolve (installationPath self) t) as [|a root] eqn:Hr;
    [discriminate|].
  destruct (fs_existsSync _ _) eqn:Hx; simpl.
  - finish_launch.
  - destruct (fs_mkdirSync _ _) as [[[]|err] o1] eqn:Hm; simpl;
      [|discriminate].
    finish_launch.
Qed.

End LauncherFacts.

Section LauncherEnv.
Context `{host : Host}.

Lemma gitEnv_lookup_other platform git m k :
  k ≠ "PREFIX" → k ≠ "GIT_SSL_CAINFO" →
  gitEnv platform git m !! k = m !! k.
Proof.
  intros H1 H2. unfold gitEnv.
  destruct (String.eqb platform "win32"); simpl; [reflexivity|].
  destruct (String.eqb platform "linux"); simpl.
  - rewrite lookup_insert_ne by congruence.
    rewrite lookup_insert_ne by congruence. reflexivity.
  - rewrite lookup_insert_ne by congruence. reflexivity.
Qed.

Lemma launchEnv_lookup self port goRoot :
  let e := launchEnv self port goRoot in
  e !! "GOROOT" = Some goRoot
  ∧ e !! "GOPATH" = Some (goPath (options self))
  ∧ e !! "GOCACHE" = Some (path_resolve (goPath (options self)) ".cache")
  ∧ e !! "CGO_ENABLED" = Some "0"
  ∧ e !! "CLIENT_HOST" = Some "127.0.0.1"
  ∧ e !! "CLIENT_PORT" = Some (num_toString port)
  ∧ e !! "PATH" =
      Some (path_dirname (binPath (git_paths os_platform))
              +:+ path_delimiter +:+ path_resolve goRoot "bin"
              +:+ path_delimiter +:+ opt_toString (process_env !! "PATH")).
Proof.
  unfold launchEnv. cbv zeta.
  split_and!; rewrite lookup_union, gitEnv_lookup_other by discriminate;
    simplify_map_eq; reflexivity.
Qed.

End LauncherEnv.

Section LauncherProperties.
Context `{host : Host}.

(** C1. When the glob search for the platform's executable name
    ('go-langserver.exe' on win32, 'go-langserver' elsewhere) under the
    installation path finds nothing, [spawnProcess] fails with the error
    'Cannot find executable go language server' and leaves the world as it
    was: no process object, no call to mkdir, spawn or the log sink, no
    change of the operating-system state. *)
Theorem spawnProcess_executable_not_found self port log (w : World) :
  glob_sync
    (if String.eqb process_platform "win32" then "go-langserver.exe"
     else "go-langserver")
    (installationPath self) (os w) = [] →
  spawnProcess self port log w
  = (Throw (Error "Cannot find executable go language server"), w).
Proof. apply spawnProcess_without_executable. Qed.

(** C2, amended. When the executable is found and the glob pattern
    '**/go/**' under the installation path matches nothing, [spawnProcess]
    fails with the error 'Cannot find go toolchain in bundle installation'
    and leaves the world as it was, so no process is spawned. *)
Theorem spawnProcess_toolchain_not_found self port log (w : World) e le :
  glob_sync launcherPattern (installationPath self) (os w) = e :: le →
  glob_sync "**/go/**" (installationPath self) (os w) = [] →
  spawnProcess self port log w
  = (Throw (Error "Cannot find go toolchain in bundle installation"), w).
Proof. apply spawnProcess_without_toolchain. Qed.

(** C3. In detach mode [getPort] answers the fixed port 2091, whatever
    the state of the world and without touching it; otherwise it answers
    what the get-port lookup answers. *)
Theorem getPort_detach_or_lookup self (w : World) :
  (detach (lsp (options self)) = true →
   getPort self w = (Normal 2091, w))
  ∧ (detach (lsp (options self)) = false →
     getPort self w = getPortPromise w
     ∧ fst (getPort self w) = fst (get_port (os w))).
Proof.
  unfold getPort. split; intros ->; simpl.
  - reflexivity.
  - split; [reflexivity|].
    unfold getPortPromise. destruct (get_port (os w)). reflexivity.
Qed.

(** C4. After a successful [spawnProcess], the process object returned
    was spawned with an environment in which GOROOT is the resolved
    toolchain path, GOPATH is [options.goPath], GOCACHE is the '.cache'
    entry resolved in it, CGO_ENABLED is '0', CLIENT_HOST is '127.0.0.1',
    CLIENT_PORT is the port in decimal, and PATH is the directory of the
    bundled git binary, then the toolchain's bin directory, then the
    inherited PATH, separated by the path delimiter. *)
Theorem spawnProcess_environment self port log (w : World) prog w' :
  spawnProcess self port log w = (Normal prog, w') →
  ∃ c t lt,
    procs w' !! child prog = Some c
    ∧ glob_sync "**/go/**" (installationPath self) (os w) = t :: lt
    ∧ let goRoot := path_resolve (installationPath self) t in
      let e := env (spawnopts c) in
      e !! "GOROOT" = Some goRoot
      ∧ e !! "GOPATH" = Some (goPath (options self))
      ∧ e !! "GOCACHE" = Some (path_resolve (goPath (options self)) ".cache")
      ∧ e !! "CGO_ENABLED" = Some "0"
      ∧ e !! "CLIENT_HOST" = Some "127.0.0.1"
      ∧ e !! "CLIENT_PORT" = Some (num_toString port)
      ∧ e !! "PATH" =
          Some (path_dirname (binPath (git_paths os_platform))
                  +:+ path_delimiter +:+ path_resolve goRoot "bin"
                  +:+ path_delimiter
                  +:+ opt_toString (process_env !! "PATH")).
Proof.
  intros Hok.
  destruct (spawnProcess_success _ _ _ _ _ _ Hok)
    as (e & le & t & lt & c & _ & Ht & _ & Hprocs & Hchild & _ & _ & _ & _
        & Hopts & _).
  exists c, t, lt. split_and!.
  - rewrite Hprocs, Hchild. apply lookup_last.
  - exact Ht.
  - rewrite Hopts. simpl. apply launchEnv_lookup.
Qed.

(** C5, amended. [spawnProcess] calls [fs.mkdirSync] exactly when the
    executable and the toolchain have been found and
    [fs.existsSync(options.goPath)] is false, and then on [options.goPath]
    and on nothing else; when the path exists, or when the discovery
    fails, no directory is created. *)
Theorem spawnProcess_mkdir_calls self port log (w : World) :
  ∃ calls,
    trace (snd (spawnProcess self port log w)) = trace w ++ calls
    ∧ ∀ d,
        CallMkdir d ∈ calls
        ↔ d = goPath (options self)
          ∧ fs_existsSync (goPath (options self)) (os w) = false
          ∧ ∃ e le t lt,
              glob_sync launcherPattern (installationPath self) (os w)
                = e :: le
              ∧ glob_sync "**/go/**" (installationPath self) (os w) = t :: lt
              ∧ path_resolve (installationPath self) t ≠ "".
Proof.
  run.
  destruct (glob_sync launcherPattern _ _) as [|x lx] eqn:He.
  { exists []. simpl. rewrite app_nil_r. split; [reflexivity|].
    intros d. split; [intros H; inversion H|].
    intros (_ & _ & ? & ? & ? & ? & ? & _); discriminate. }
  destruct (glob_sync "**/go/**" _ _) as [|y ly] eqn:Ht.
  { exists []. simpl. rewrite app_nil_r. split; [reflexivity|].
    intros d. split; [intros H; inversion H|].
    intros (_ & _ & ? & ? & ? & ? & _ & ? & _); discriminate. }
  destruct (path_resolve (installationPath self) y) as [|a root] eqn:Hr.
  { exists []. simpl. rewrite app_nil_r. split; [reflexivity|].
    intros d. split; [intros H; inversion H|].
    intros (_ & _ & ? & ? & t' & ? & _ & [= <- _] & Hne).
    rewrite Hr in Hne. congruence. }
  assert (Hfound : ∃ (e : string) (le : list string) t lt,
            x :: lx = e :: le ∧ y :: ly = t :: lt
            ∧ path_resolve (installationPath self) t ≠ "").
  { exists x, lx, y, ly. rewrite Hr. split_and!; done. }
  destruct (fs_existsSync _ _) eqn:Hx; simpl.
  - destruct (os_spawn _ _ _ _) as [p o]. simpl.
    eexists [_; _]. split; [rewrite <- app_assoc; reflexivity|].
    intros d. rewrite !elem_of_cons, elem_of_nil.
    split; [intros [?|[?|[]]]; discriminate|].
    intros (_ & ? & _); discriminate.
  - destruct (fs_mkdirSync _ _) as [[[]|err] o1]; simpl.
    + destruct (os_spawn _ _ _ _) as [p o]. simpl.
      eexists [_; _; _]. split; [rewrite <- !app_assoc; reflexivity|].
      intros d. rewrite !elem_of_cons, elem_of_nil.
      split.
      * intros [[= ->]|[?|[?|[]]]]; try discriminate. split_and!; done.
      * intros (-> & _). left. reflexivity.
    + eexists [_]. split; [reflexivity|].
      intros d. rewrite !elem_of_cons, elem_of_nil.
      split.
      * intros [[= ->]|[]]. split_and!; done.
      * intros (-> & _). left. reflexivity.
Qed.

(** C7. After a successful [spawnProcess] the process was spawned, in
    this call, with [stdio: 'pipe'] and [detached: false]; a chunk
    arriving on its stdout is passed, as text, to [log.stdout] and to
    nothing else, a chunk on its stderr to [log.stderr]; and the value
    returned is the [ExternalProgram] built from that process, the
    launcher's options and the log sink. *)
Theorem spawnProcess_pipes_and_handle self port log (w : World) prog w' :
  spawnProcess self port log w = (Normal prog, w') →
  ∃ c,
    procs w' = procs w ++ [c]
    ∧ procs w' !! child prog = Some c
    ∧ CallSpawn (spawnfile c) (spawnargs c) (spawnopts c) ∈ trace w'
    ∧ stdio (spawnopts c) = StdioPipe
    ∧ detached (spawnopts c) = false
    ∧ (∀ data, emit (stdout_on_data c) data
               = [LogStdout log (buffer_toString data)])
    ∧ (∀ data, emit (stderr_on_data c) data
               = [LogStderr log (buffer_toString data)])
    ∧ prog = {| child := length (procs w);
                program_options := options self;
                program_log := log |}.
Proof.
  intros Hok.
  destruct (spawnProcess_success _ _ _ _ _ _ Hok)
    as (e & le & t & lt & c & _ & _ & _ & Hprocs & Hchild & Hpo & Hpl & _ & _
        & Hopts & Hout & Herr & info & Htrace).
  exists c. split_and!.
  - exact Hprocs.
  - rewrite Hprocs, Hchild. apply lookup_last.
  - rewrite Htrace, !elem_of_app. right. right. left.
  - rewrite Hopts. reflexivity.
  - rewrite Hopts. reflexivity.
  - intros data. rewrite Hout. reflexivity.
  - intros data. rewrite Herr. reflexivity.
  - destruct prog; simpl in *. congruence.
Qed.

(** C8. The executable is looked for first: with neither the executable
    nor the toolchain under the installation path the failure is the
    executable error, not the toolchain error; and a call that fails with
    the toolchain error has found the executable. *)
Theorem spawnProcess_executable_checked_first self port log (w : World) :
  (glob_sync launcherPattern (installationPath self) (os w) = [] →
   glob_sync "**/go/**" (installationPath self) (os w) = [] →
   spawnProcess self port log w
   = (Throw (Error "Cannot find executable go language server"), w)
   ∧ fst (spawnProcess self port log w)
     ≠ Throw (Error "Cannot find go toolchain in bundle installation"))
  ∧ (fst (spawnProcess self port log w)
     = Throw (Error "Cannot find go toolchain in bundle installation") →
     glob_sync launcherPattern (installationPath self) (os w) ≠ []).
Proof.
  split.
  - intros Hexe _.
    rewrite (spawnProcess_without_executable self port log w Hexe).
    split; [reflexivity|]. simpl. discriminate.
  - intros Hfail Hexe.
    rewrite (spawnProcess_without_executable self port log w Hexe) in Hfail.
    simpl in Hfail. discriminate.
Qed.

End LauncherProperties.

Section LauncherTotality.
Context `{host : Host}.

(** With the executable and the toolchain found and the cache directory
    there or creatable, the launch goes through. *)
Lemma spawnProcess_succeeds self port log (w : World) e le t lt :
  glob_sync launcherPattern (installationPath self) (os w) = e :: le →
  glob_sync "**/go/**" (installationPath self) (os w) = t :: lt →
  path_resolve (installationPath self) t ≠ "" →
  fs_existsSync (goPath (options self)) (os w) = true
  ∨ is_throw (fst (fs_mkdirSync (goPath (options self)) (os w))) = false →
  ∃ w', spawnProcess self port log w
        = (Normal {| child := length (procs w);
                     program_options := options self;
                     program_log := log |}, w').
Proof.
  intros He Ht Hr Hdir. run. rewrite He, Ht.
  destruct (path_resolve (installationPath self) t) as [|a root];
    [congruence|].
  destruct (fs_existsSync _ _); simpl.
  - destruct (os_spawn _ _ _ _) as [p o]. simpl. eexists. reflexivity.
  - destruct Hdir as [|Hdir]; [discriminate|].
    destruct (fs_mkdirSync _ _) as [[[]|err] o1]; simpl in *;
      [|discriminate].
    destruct (os_spawn _ _ _ _) as [p o]. simpl. eexists. reflexivity.
Qed.

End LauncherTotality.

(** C6. Discovery takes the first match of each glob search: a
    successful [spawnProcess] has spawned the first match for the
    executable pattern, resolved against the installation path, with GOROOT
    the first match for '**/go/**', resolved likewise. In particular, with
    go-langserver at the root of /opt/lsp and the directory
    /opt/lsp/sdk/go/bin, [spawnProcess(5000, log)] succeeds and the
    process has GOROOT=/opt/lsp/sdk/go. *)
Theorem spawnProcess_first_match :
  (∀ (host : Host) self port log (w : World) prog w',
     spawnProcess self port log w = (Normal prog, w') →
     ∃ e le t lt c,
       glob_sync launcherPattern (installationPath self) (os w) = e :: le
       ∧ glob_sync "**/go/**" (installationPath self) (os w) = t :: lt
       ∧ procs w' !! child prog = Some c
       ∧ spawnfile c = path_resolve (installationPath self) e
       ∧ env (spawnopts c) !! "GOROOT"
         = Some (path_resolve (installationPath self) t))
  ∧ (∃ prog w' c,
       @spawnProcess Scenario.linux (Scenario.launcher false) 5000 "lsp"
         Scenario.complete = (Normal prog, w')
       ∧ procs w' !! child prog = Some c
       ∧ spawnfile c = "/opt/lsp/go-langserver"
       ∧ env (spawnopts c) !! "GOROOT" = Some "/opt/lsp/sdk/go").
Proof.
  assert (Hgen : ∀ (host : Host) self port log (w : World) prog w',
     spawnProcess self port log w = (Normal prog, w') →
     ∃ e le t lt c,
       glob_sync launcherPattern (installationPath self) (os w) = e :: le
       ∧ glob_sync "**/go/**" (installationPath self) (os w) = t :: lt
       ∧ procs w' !! child prog = Some c
       ∧ spawnfile c = path_resolve (installationPath self) e
       ∧ env (spawnopts c) !! "GOROOT"
         = Some (path_resolve (installationPath self) t)).
  { intros host self port log w prog w' Hok.
    destruct (spawnProcess_success _ _ _ _ _ _ Hok)
      as (e & le & t & lt & c & He & Ht & _ & Hprocs & Hchild & _ & _ & Hfile
          & _ & Hopts & _).
    exists e, le, t, lt, c. split_and!; try assumption.
    - rewrite Hprocs, Hchild. apply lookup_last.
    - rewrite Hopts. simpl. apply launchEnv_lookup. }
  split; [exact Hgen|].
  assert (Hnormal : is_throw (fst (@spawnProcess Scenario.linux
            (Scenario.launcher false) 5000 "lsp" Scenario.complete)) = false)
    by (vm_compute; reflexivity).
  destruct (@spawnProcess Scenario.linux (Scenario.launcher false) 5000 "lsp"
              Scenario.complete) as [[prog|err] w'] eqn:Hrun;
    [|discriminate].
  destruct (Hgen _ _ _ _ _ _ _ Hrun)
    as (e & le & t & lt & c & He & Ht & Hc & Hfile & Hroot).
  vm_compute in He. vm_compute in Ht.
  injection He as <- _. injection Ht as <- _.
  exists prog, w', c. split_and!; [reflexivity|exact Hc| |].
  - rewrite Hfile. vm_compute. reflexivity.
  - rewrite Hroot. vm_compute. reflexivity.
Qed.

(* --------------------------------------------------------------------- *)
(** *** The launcher on the concrete installations                        *)
(* --------------------------------------------------------------------- *)

Section LauncherRuns.
Import Scenario.

(** C1 at /opt/lsp holding only the toolchain. *)
Lemma spawnProcess_executable_not_found_run :
  @glob_sync linux "go-langserver" "/opt/lsp" (os no_executable) = []
  ∧ @spawnProcess linux (launcher false) 5000 "lsp" no_executable
    = (Throw (Error "Cannot find executable go language server"),
       no_executable).
Proof.
  split.
  - vm_compute. reflexivity.
  - apply (@spawnProcess_executable_not_found linux).
    vm_compute. reflexivity.
Defined.

(** C2 as stated fails at /opt/lsp holding neither the executable nor the
    toolchain: the toolchain search matches nothing, and the failure is
    the executable error. *)
Lemma toolchain_missing_executable_error :
  @glob_sync linux "**/go/**" "/opt/lsp" (os bare) = []
  ∧ @spawnProcess linux (launcher false) 5000 "lsp" bare
    = (Throw (Error "Cannot find executable go language server"), bare)
  ∧ fst (@spawnProcess linux (launcher false) 5000 "lsp" bare)
    ≠ Throw (Error "Cannot find go toolchain in bundle installation").
Proof.
  assert (Hrun : @spawnProcess linux (launcher false) 5000 "lsp" bare
                 = (Throw executableError, bare)).
  { apply (@spawnProcess_without_executable linux). vm_compute. reflexivity. }
  split_and!.
  - vm_compute. reflexivity.
  - exact Hrun.
  - rewrite Hrun. simpl. discriminate.
Qed.

(** C2, amended, at /opt/lsp holding only the executable. *)
Lemma spawnProcess_toolchain_not_found_run :
  @glob_sync linux (@launcherPattern linux) "/opt/lsp" (os no_toolchain)
  = ["go-langserver"]
  ∧ @glob_sync linux "**/go/**" "/opt/lsp" (os no_toolchain) = []
  ∧ @spawnProcess linux (launcher false) 5000 "lsp" no_toolchain
    = (Throw (Error "Cannot find go toolchain in bundle installation"),
       no_toolchain).
Proof.
  split_and!.
  - vm_compute. reflexivity.
  - vm_compute. reflexivity.
  - apply (@spawnProcess_toolchain_not_found linux (launcher false) 5000 "lsp"
             no_toolchain "go-langserver" []).
    + vm_compute. reflexivity.
    + vm_compute. reflexivity.
Defined.

(** C3 with and without detach mode. *)
Lemma getPort_detach_or_lookup_run :
  @getPort linux (launcher true) complete = (Normal 2091, complete)
  ∧ fst (@getPort linux (launcher false) complete) = Normal 50123.
Proof.
  split.
  - apply (proj1 (@getPort_detach_or_lookup linux (launcher true) complete)).
    reflexivity.
  - rewrite (proj2 (proj2 (@getPort_detach_or_lookup linux (launcher false)
                             complete) eq_refl)).
    vm_compute. reflexivity.
Defined.

(** The launch at /opt/lsp with go-langserver and sdk/go/bin. *)
Lemma complete_launch :
  ∃ w', @spawnProcess linux (launcher false) 5000 "lsp" complete
        = (Normal (@Build_ExternalProgram linux 0 (server_options false)
                     "lsp"), w').
Proof.
  apply (@spawnProcess_succeeds linux (launcher false) 5000 "lsp" complete
           "go-langserver" [] "sdk/go" ["sdk/go/bin"]).
  - vm_compute. reflexivity.
  - vm_compute. reflexivity.
  - vm_compute. discriminate.
  - right. vm_compute. reflexivity.
Defined.

(** C4 at that launch. *)
Lemma spawnProcess_environment_run :
  ∃ prog w',
    @spawnProcess linux (launcher false) 5000 "lsp" complete
    = (Normal prog, w')
    ∧ ∃ c, procs w' !! child prog = Some c
      ∧ env (spawnopts c) !! "GOROOT" = Some "/opt/lsp/sdk/go"
      ∧ env (spawnopts c) !! "GOPATH" = Some "/var/lib/kibana/gopath"
      ∧ env (spawnopts c) !! "GOCACHE" = Some "/var/lib/kibana/gopath/.cache"
      ∧ env (spawnopts c) !! "CGO_ENABLED" = Some "0"
      ∧ env (spawnopts c) !! "CLIENT_HOST" = Some "127.0.0.1"
      ∧ env (spawnopts c) !! "CLIENT_PORT" = Some "5000"
      ∧ env (spawnopts c) !! "PATH"
        = Some ("/srv/kibana/node_modules/git/native/bin:"
                  +:+ "/opt/lsp/sdk/go/bin:" +:+ "/usr/bin:/bin").
Proof.
  destruct complete_launch as [w' Hrun].
  eexists _, w'. split; [exact Hrun|].
  destruct (@spawnProcess_environment linux _ _ _ _ _ _ Hrun)
    as (c & t & lt & Hc & Ht & H1 & H2 & H3 & H4 & H5 & H6 & H7).
  vm_compute in Ht. injection Ht as <- _.
  exists c. split; [exact Hc|].
  rewrite H1, H2, H3, H4, H5, H6, H7.
  split_and!; vm_compute; reflexivity.
Defined.

(** C5 as stated fails at /opt/lsp holding only the toolchain: the cache
    path does not exist, and the call leaves the world as it was, creating
    nothing. *)
Lemma cache_missing_nothing_created :
  @fs_existsSync linux "/var/lib/kibana/gopath" (os no_executable) = false
  ∧ snd (@spawnProcess linux (launcher false) 5000 "lsp" no_executable)
    = no_executable
  ∧ CallMkdir "/var/lib/kibana/gopath"
    ∉ trace (snd (@spawnProcess linux (launcher false) 5000 "lsp"
                    no_executable)).
Proof.
  assert (Hrun : @spawnProcess linux (launcher false) 5000 "lsp" no_executable
                 = (Throw executableError, no_executable)).
  { apply (@spawnProcess_without_executable linux). vm_compute. reflexivity. }
  rewrite Hrun. split_and!.
  - vm_compute. reflexivity.
  - reflexivity.
  - simpl. apply not_elem_of_nil.
Qed.

(** C6 at the launch under /opt/lsp. *)
Lemma spawnProcess_first_match_run :
  ∃ prog w' e le t lt c,
    @spawnProcess linux (launcher false) 5000 "lsp" complete
    = (Normal prog, w')
    ∧ @glob_sync linux (@launcherPattern linux) "/opt/lsp" (os complete)
      = e :: le
    ∧ @glob_sync linux "**/go/**" "/opt/lsp" (os complete) = t :: lt
    ∧ procs w' !! child prog = Some c
    ∧ spawnfile c = @path_resolve linux "/opt/lsp" e
    ∧ env (spawnopts c) !! "GOROOT" = Some (@path_resolve linux "/opt/lsp" t).
Proof.
  destruct complete_launch as [w' Hrun].
  destruct (proj1 spawnProcess_first_match linux _ _ _ _ _ _ Hrun)
    as (e & le & t & lt & c & H).
  eexists _, w', e, le, t, lt, c. split; [exact Hrun|exact H].
Defined.

(** C7 at the launch under /opt/lsp. *)
Lemma spawnProcess_pipes_and_handle_run :
  ∃ prog w',
    @spawnProcess linux (launcher false) 5000 "lsp" complete
    = (Normal prog, w')
    ∧ ∃ c, procs w' = [c]
      ∧ stdio (spawnopts c) = StdioPipe
      ∧ detached (spawnopts c) = false
      ∧ @emit linux (stdout_on_data c) "ready"
        = [@LogStdout linux "lsp" "ready"]
      ∧ @emit linux (stderr_on_data c) "oops"
        = [@LogStderr linux "lsp" "oops"].
Proof.
  destruct complete_launch as [w' Hrun].
  eexists _, w'. split; [exact Hrun|].
  destruct (@spawnProcess_pipes_and_handle linux _ _ _ _ _ _ Hrun)
    as (c & Hprocs & _ & _ & Hstdio & Hdet & Hout & Herr & _).
  exists c. split_and!.
  - exact Hprocs.
  - exact Hstdio.
  - exact Hdet.
  - exact (Hout "ready").
  - exact (Herr "oops").
Defined.

(** C8 at /opt/lsp holding neither, and holding only the executable. *)
Lemma spawnProcess_executable_checked_first_run :
  @spawnProcess linux (launcher false) 5000 "lsp" bare
  = (Throw (Error "Cannot find executable go language server"), bare)
  ∧ @glob_sync linux (@launcherPattern linux) "/opt/lsp" (os no_toolchain)
    ≠ [].
Proof.
  split.
  - apply (proj1 (@spawnProcess_executable_checked_first linux
                    (launcher false) 5000 "lsp" bare)).
    + vm_compute. reflexivity.
    + vm_compute. reflexivity.
  - apply (proj2 (@spawnProcess_executable_checked_first linux
                    (launcher false) 5000 "lsp" no_toolchain)).
    rewrite (@spawnProcess_without_toolchain linux (launcher false) 5000
               "lsp" no_toolchain "go-langserver" []);
      [reflexivity | vm_compute; reflexivity | vm_compute; reflexivity].
Defined.

End LauncherRuns.

(* ===================================================================== *)
(** ** Properties of the expression render handler                        *)
(* ===================================================================== *)

Section RenderProperties.
Import ExpressionRenderer.
Context {Element : Type}.
Variable registry_get : Value → option (@Renderer Element).

Lemma render_first_check (self : ExpressionRenderHandler) data extraHandlers :
  truthy data = false
  ∨ strict_eq_str (get "type" data) "render" = false
  ∨ truthy (get "as" data) = false →
  render registry_get self data extraHandlers
  = (Throw invalidDataError, self).
Proof.
  intros Hbad. unfold render.
  destruct Hbad as [-> | [-> | ->]]; simpl.
  - reflexivity.
  - rewrite orb_true_r. reflexivity.
  - rewrite !orb_true_r. reflexivity.
Qed.

Lemma render_passes_first_check (self : ExpressionRenderHandler) data
  extraHandlers :
  renderable data →
  render registry_get self data extraHandlers
  = match registry_get (get "as" data) with
    | None =>
        (Throw (Error ("invalid renderer id '" +:+ toString (get "as" data)
                         +:+ "'")), self)
    | Some renderer =>
        let '(calls, outcome) :=
          renderer_render renderer (element self) (get "value" data) in
        let self' :=
          foldl (λ h c, run_call extraHandlers c h)
                (note_invocation (get "as" data) (get "value" data) self)
                calls in
        match outcome with
        | Throw e => (Throw e, self')
        | Normal _ =>
            (Normal (render_emitted self' !! length (render_emitted self)),
             self')
        end
    end.
Proof.
  intros (Hdata & Htype & Has). unfold render.
  rewrite Hdata, Htype, Has. reflexivity.
Qed.

(** The handlers never touch the list of invocations. *)
Lemma run_calls_invoked extraHandlers calls
  (h : @ExpressionRenderHandler Element) :
  invoked (foldl (λ (h : @ExpressionRenderHandler Element) c,
                    run_call extraHandlers c h) h calls)
  = invoked h.
Proof.
  revert h. induction calls as [|c calls IH]; intros h; simpl; [reflexivity|].
  rewrite IH. unfold run_call. case_bool_decide; [reflexivity|].
  destruct c; reflexivity.
Qed.

(** Data that passes both checks reaches the renderer, once. *)
Lemma render_invokes (self : ExpressionRenderHandler) data extraHandlers r :
  renderable data →
  registry_get (get "as" data) = Some r →
  invoked (snd (render registry_get self data extraHandlers))
  = invoked self ++ [(get "as" data, get "value" data)].
Proof.
  intros Hok Hr. rewrite (render_passes_first_check _ _ _ Hok), Hr.
  destruct (renderer_render r _ _) as [calls [[]|e]]; simpl;
    apply run_calls_invoked.
Qed.

(** C9, amended. [render] fails with 'invalid data provided to
    expression renderer' when the data is falsy, or its type is not
    'render', or its 'as' is falsy (missing, or the empty string); it fails
    with "invalid renderer id '<data.as>'" when the data passes that
    check and the registry has nothing for [data.as]. In both cases the
    handler is left as it was: no renderer has been invoked and nothing has
    been emitted on [render$]. The two cases cover all data for which the
    registry has nothing. *)
Theorem render_rejects (self : ExpressionRenderHandler) data extraHandlers :
  let result := render registry_get self data extraHandlers in
  (truthy data = false
   ∨ strict_eq_str (get "type" data) "render" = false
   ∨ truthy (get "as" data) = false →
   result = (Throw (Error "invalid data provided to expression renderer"),
             self)
   ∧ invoked (snd result) = invoked self
   ∧ render_emitted (snd result) = render_emitted self)
  ∧ (renderable data →
     registry_get (get "as" data) = None →
     result = (Throw (Error ("invalid renderer id '"
                               +:+ toString (get "as" data) +:+ "'")),
               self)
     ∧ invoked (snd result) = invoked self
     ∧ render_emitted (snd result) = render_emitted self)
  ∧ (get "as" data = VUndefined → truthy (get "as" data) = false)
  ∧ (renderable data
     ∨ truthy data = false
     ∨ strict_eq_str (get "type" data) "render" = false
     ∨ truthy (get "as" data) = false).
Proof.
  cbv zeta. split_and!.
  - intros Hbad.
    rewrite render_first_check by exact Hbad. split_and!; reflexivity.
  - intros Hok Hnone.
    rewrite (render_passes_first_check _ _ _ Hok), Hnone.
    split_and!; reflexivity.
  - intros ->. reflexivity.
  - unfold renderable.
    destruct (truthy data); [|auto].
    destruct (strict_eq_str (get "type" data) "render"); [|auto].
    destruct (truthy (get "as" data)); auto.
Qed.

End RenderProperties.

(* ===================================================================== *)
(** ** Properties of the events-over-time query                           *)
(* ===================================================================== *)

Section QueryProperties.
Import EventsOverTime.
Variable createQueryFilterClauses : Value → list Value.
Variable calculateTimeseriesInterval : Value → Value → Value → Value.

(** C10. For every options object the query built has a body with
    [size] 0 and [track_total_hits] true; its [eventActionGroup] is a
    terms aggregation on 'event.action', of size 10, with 'All others' for
    the missing bucket, ordered by descending count; and its nested
    [events] aggregation is a date_histogram on '@timestamp' with
    [fixed_interval] the interval followed by 's' exactly when
    [calculateTimeseriesInterval(from, to, 10)] is truthy, and otherwise an
    auto_date_histogram on '@timestamp' with 36 buckets. *)
Theorem buildEventsOverTimeQuery_shape (opts : RequestBasicOptions) :
  let query :=
    buildEventsOverTimeQuery createQueryFilterClauses
      calculateTimeseriesInterval opts in
  let body := get "body" query in
  let group := get "eventActionGroup" (get "aggregations" body) in
  let events := get "events" (get "aggs" group) in
  let interval :=
    calculateTimeseriesInterval (from (timerange opts)) (to (timerange opts))
      (VNum 10) in
  get "size" body = VNum 0
  ∧ get "track_total_hits" body = VBool true
  ∧ get "terms" group
    = VObj [("field", VStr "event.action");
            ("missing", VStr "All others");
            ("order", VObj [("_count", VStr "desc")]);
            ("size", VNum 10)]
  ∧ (truthy interval = true →
     events
     = VObj [("date_histogram",
              VObj [("field", VStr "@timestamp");
                    ("fixed_interval", VStr (toString interval +:+ "s"))])])
  ∧ (truthy interval = false →
     events
     = VObj [("auto_date_histogram",
              VObj [("field", VStr "@timestamp"); ("buckets", VNum 36)])])
  ∧ (get "date_histogram" events ≠ VUndefined ↔ truthy interval = true).
Proof.
  cbv zeta. unfold buildEventsOverTimeQuery, getHistogramAggregation.
  cbn [get assoc String.eqb Ascii.eqb Bool.eqb default from_option].
  split_and!; try reflexivity.
  - intros ->. reflexivity.
  - intros ->. reflexivity.
  - destruct (truthy _); cbn; split; congruence.
Qed.

End QueryProperties.

(* --------------------------------------------------------------------- *)
(** *** The render handler and the query builder on concrete inputs       *)
(* --------------------------------------------------------------------- *)

Section RenderRuns.
Import ExpressionRenderer Scenario.

(** C9, amended, on null data, on data whose 'as' is empty, and on data
    for a renderer that is not registered. *)
Lemma render_rejects_run :
  render markdown_only (new_handler "div") VNull []
  = (Throw (Error "invalid data provided to expression renderer"),
     new_handler "div")
  ∧ render markdown_only (new_handler "div") empty_as ["done"]
    = (Throw (Error "invalid data provided to expression renderer"),
       new_handler "div")
  ∧ render markdown_only (new_handler "div") pie_chart []
    = (Throw (Error "invalid renderer id 'pie'"), new_handler "div").
Proof.
  split_and!.
  - apply (proj1 (render_rejects markdown_only (new_handler "div") VNull [])).
    left. reflexivity.
  - apply (proj1 (render_rejects markdown_only (new_handler "div") empty_as
                    ["done"])).
    right. right. reflexivity.
  - apply (proj1 (proj2 (render_rejects markdown_only (new_handler "div")
                           pie_chart []))).
    + unfold renderable. split_and!; reflexivity.
    + reflexivity.
Defined.

(** C9 as stated fails on data that is truthy, of type 'render', with an
    'as' field holding the empty string, for which the registry has
    nothing: the failure is the invalid-data error, not the renderer-id
    error. *)
Lemma empty_as_is_invalid_data :
  truthy empty_as = true
  ∧ strict_eq_str (get "type" empty_as) "render" = true
  ∧ assoc "as" [("type", VStr "render"); ("as", VStr ""); ("value", VNum 3)]
    = Some (VStr "")
  ∧ markdown_only (get "as" empty_as) = None
  ∧ render markdown_only (new_handler "div") empty_as []
    = (Throw (Error "invalid data provided to expression renderer"),
       new_handler "div")
  ∧ fst (render markdown_only (new_handler "div") empty_as [])
    ≠ Throw (Error ("invalid renderer id '"
                      +:+ toString (get "as" empty_as) +:+ "'")).
Proof.
  split_and!; try reflexivity.
  simpl. discriminate.
Qed.

(** Registered data is rendered: the renderer runs and its completion
    resolves the promise with the render count. *)
Example render_markdown :
  render markdown_only (new_handler "div") markdown_text []
  = (Normal (Some 1),
     {| element := "div"; destroyFn := None; renderCount := 1;
        render_emitted := [1]; update_emitted := []; events_emitted := [];
        invoked := [(VStr "markdown", VStr "# title")] |}).
Proof. reflexivity. Qed.

End RenderRuns.

Section QueryRuns.
Import EventsOverTime Scenario.

(** C10 with an interval of 1800 seconds, and with none. *)
Lemma buildEventsOverTimeQuery_shape_run :
  get "events"
    (get "aggs"
       (get "eventActionGroup"
          (get "aggregations"
             (get "body"
                (buildEventsOverTimeQuery (λ _, []) (λ _ _ _, VNum 1800)
                   last_day)))))
  = VObj [("date_histogram",
           VObj [("field", VStr "@timestamp");
                 ("fixed_interval", VStr "1800s")])]
  ∧ get "events"
      (get "aggs"
         (get "eventActionGroup"
            (get "aggregations"
               (get "body"
                  (buildEventsOverTimeQuery (λ _, []) (λ _ _ _, VNull)
                     last_day)))))
    = VObj [("auto_date_histogram",
             VObj [("field", VStr "@timestamp"); ("buckets", VNum 36)])].
Proof.
  split.
  - apply (proj1 (proj2 (proj2 (proj2
             (buildEventsOverTimeQuery_shape (λ _, []) (λ _ _ _, VNum 1800)
                last_day))))).
    reflexivity.
  - apply (proj1 (proj2 (proj2 (proj2 (proj2
             (buildEventsOverTimeQuery_shape (λ _, []) (λ _ _ _, VNull)
                last_day)))))).
    reflexivity.
Defined.

End QueryRuns.

(* ===================================================================== *)
(** ** Further properties of the Go launcher                              *)
(* ===================================================================== *)

Section LauncherOutcomes.
Context `{host : Host}.

(** How [spawnProcess] fails before it spawns: in one of the two checks,
    leaving the world as it was, or in [mkdirSync]. (From the [spawn] call
    on, the calls are taken to return normally, see [Node.spawn].) *)
Lemma spawnProcess_failure self port log (w : World) e w' :
  spawnProcess self port log w = (Throw e, w') →
  w' = w
  ∨ fs_existsSync (goPath (options self)) (os w) = false
    ∧ ∃ o1,
        fs_mkdirSync (goPath (options self)) (os w) = (Throw e, o1)
        ∧ w' = {| os := o1; procs := procs w;
                  trace := trace w ++ [CallMkdir (goPath (options self))] |}.
Proof.
  run.
  destruct (glob_sync launcherPattern _ _) as [|x lx];
    [intros [= _ <-]; left; reflexivity|].
  destruct (glob_sync "**/go/**" _ _) as [|y ly];
    [intros [= _ <-]; left; reflexivity|].
  destruct (path_resolve (installationPath self) y) as [|a root];
    [intros [= _ <-]; left; reflexivity|].
  destruct (fs_existsSync _ _) eqn:Hx; simpl.
  - destruct (os_spawn _ _ _ _) as [p o]. simpl. discriminate.
  - destruct (fs_mkdirSync _ _) as [[[]|err] o1] eqn:Hm; simpl.
    + destruct (os_spawn _ _ _ _) as [p o]. simpl. discriminate.
    + intros [= <- <-]. right. split; [reflexivity|].
      exists o1. split; reflexivity.
Qed.

(** X20. When the executable and the toolchain are found, the cache path
    does not exist and [mkdirSync] throws, [spawnProcess] fails with that
    very error, after the [mkdirSync] call and before any spawn. *)
Theorem spawnProcess_mkdir_failure self port log (w : World) x lx y ly e o1 :
  glob_sync launcherPattern (installationPath self) (os w) = x :: lx →
  glob_sync "**/go/**" (installationPath self) (os w) = y :: ly →
  path_resolve (installationPath self) y ≠ "" →
  fs_existsSync (goPath (options self)) (os w) = false →
  fs_mkdirSync (goPath (options self)) (os w) = (Throw e, o1) →
  spawnProcess self port log w
  = (Throw e,
     {| os := o1; procs := procs w;
        trace := trace w ++ [CallMkdir (goPath (options self))] |}).
Proof.
  intros Hx Hy Hr Hex Hmk. run. rewrite Hx, Hy.
  destruct (path_resolve (installationPath self) y) as [|a root];
    [congruence|].
  rewrite Hex. simpl. rewrite Hmk. reflexivity.
Qed.

(** X21. The environment of the spawned process has exactly the
    variables GOROOT, GOPATH, GOCACHE, CGO_ENABLED, CLIENT_HOST,
    CLIENT_PORT and PATH, with PREFIX on every platform but win32 and
    GIT_SSL_CAINFO on linux. No other variable of [process.env] reaches
    the language server. *)
Theorem spawnProcess_environment_variables self port log (w : World) prog w' :
  spawnProcess self port log w = (Normal prog, w') →
  ∃ c,
    procs w' !! child prog = Some c
    ∧ ∀ name,
        is_Some (env (spawnopts c) !! name)
        ↔ name ∈ ["GOROOT"; "GOPATH"; "GOCACHE"; "CGO_ENABLED";
                  "CLIENT_HOST"; "CLIENT_PORT"; "PATH"]
          ∨ (name = "PREFIX" ∧ os_platform ≠ "win32")
          ∨ (name = "GIT_SSL_CAINFO" ∧ os_platform = "linux").
Proof.
  intros Hok.
  destruct (spawnProcess_success _ _ _ _ _ _ Hok)
    as (e & le & t & lt & c & _ & _ & _ & Hprocs & Hchild & _ & _ & _ & _
        & Hopts & _).
  exists c. split; [rewrite Hprocs, Hchild; apply lookup_last|].
  intros name. rewrite Hopts. simpl.
  rewrite <- elem_of_dom. unfold launchEnv, gitEnv.
  rewrite !elem_of_cons, elem_of_nil.
  destruct (String.eqb_spec os_platform "win32") as [Hwin|Hwin]; simpl.
  - rewrite dom_union_L, !dom_insert_L, dom_singleton_L, dom_empty_L.
    rewrite !elem_of_union, !elem_of_singleton, elem_of_empty.
    rewrite Hwin. intuition congruence.
  - destruct (String.eqb_spec os_platform "linux") as [Hlin|Hlin].
    + rewrite dom_union_L, !dom_insert_L, dom_singleton_L, dom_empty_L.
      rewrite !elem_of_union, !elem_of_singleton, elem_of_empty.
      intuition congruence.
    + rewrite dom_union_L, !dom_insert_L, dom_singleton_L, dom_empty_L.
      rewrite !elem_of_union, !elem_of_singleton, elem_of_empty.
      intuition congruence.
Qed.

(** X22. The variables for the bundled git: on linux PREFIX is git's
    native directory and GIT_SSL_CAINFO the file ssl/cacert.pem joined to
    it; on win32 neither is set; on any other platform only PREFIX is. *)
Theorem spawnProcess_git_variables self port log (w : World) prog w' :
  spawnProcess self port log w = (Normal prog, w') →
  ∃ c,
    procs w' !! child prog = Some c
    ∧ let e := env (spawnopts c) in
      let git := git_paths os_platform in
      (os_platform = "linux" →
       e !! "PREFIX" = Some (nativeDir git)
       ∧ e !! "GIT_SSL_CAINFO"
         = Some (path_join (nativeDir git) "ssl/cacert.pem"))
      ∧ (os_platform = "win32" →
         e !! "PREFIX" = None ∧ e !! "GIT_SSL_CAINFO" = None)
      ∧ (os_platform ≠ "linux" → os_platform ≠ "win32" →
         e !! "PREFIX" = Some (nativeDir git)
         ∧ e !! "GIT_SSL_CAINFO" = None).
Proof.
  intros Hok.
  destruct (spawnProcess_success _ _ _ _ _ _ Hok)
    as (e & le & t & lt & c & _ & _ & _ & Hprocs & Hchild & _ & _ & _ & _
        & Hopts & _).
  exists c. split; [rewrite Hprocs, Hchild; apply lookup_last|].
  cbv zeta. rewrite Hopts. simpl. unfold launchEnv, gitEnv.
  split_and!.
  - intros ->. simpl. rewrite !lookup_union.
    simplify_map_eq. split; reflexivity.
  - intros ->. simpl. rewrite !lookup_union.
    simplify_map_eq. split; reflexivity.
  - intros Hlin Hwin.
    apply String.eqb_neq in Hlin, Hwin. rewrite Hlin, Hwin. simpl.
    rewrite !lookup_union. simplify_map_eq. split; reflexivity.
Qed.

(** X23. Launching again does not create the cache directory again: if
    a directory made by [mkdirSync] exists afterwards and spawning a
    process does not remove it, then after a successful launch the cache
    path exists, and a second launch makes no [mkdirSync] call. *)
Theorem spawnProcess_second_launch_no_mkdir self port log (w : World) prog w'
  port' log' :
  (∀ o o', fs_mkdirSync (goPath (options self)) o = (Normal (), o') →
           fs_existsSync (goPath (options self)) o' = true) →
  (∀ file args opts o,
     fs_existsSync (goPath (options self)) o = true →
     fs_existsSync (goPath (options self)) (snd (os_spawn file args opts o))
     = true) →
  spawnProcess self port log w = (Normal prog, w') →
  fs_existsSync (goPath (options self)) (os w') = true
  ∧ ∀ d, CallMkdir d
         ∉ drop (length (trace w'))
             (trace (snd (spawnProcess self port' log' w'))).
Proof.
  intros Hmk Hsp Hrun.
  assert (Hex : fs_existsSync (goPath (options self)) (os w') = true).
  { revert Hrun. run.
    destruct (glob_sync launcherPattern _ _) as [|x lx]; [discriminate|].
    destruct (glob_sync "**/go/**" _ _) as [|y ly]; [discriminate|].
    destruct (path_resolve (installationPath self) y) as [|a root];
      [discriminate|].
    destruct (fs_existsSync _ (os w)) eqn:Hx; simpl.
    - match goal with
      | |- context [os_spawn ?f ?a ?o ?s] =>
          pose proof (Hsp f a o s Hx) as Hkeep;
          destruct (os_spawn f a o s) as [p o']
      end.
      simpl in *. intros [= _ <-]. simpl. exact Hkeep.
    - destruct (fs_mkdirSync _ _) as [[[]|err] o1] eqn:Hm; simpl;
        [|discriminate].
      match goal with
      | |- context [os_spawn ?f ?a ?o ?s] =>
          pose proof (Hsp f a o s (Hmk _ _ Hm)) as Hkeep;
          destruct (os_spawn f a o s) as [p o']
      end.
      simpl in *. intros [= _ <-]. simpl. exact Hkeep. }
  split; [exact Hex|]. intros d.
  destruct (spawnProcess self port' log' w') as [[prog2|e2] w2] eqn:Hrun2;
    simpl.
  - destruct (spawnProcess_success _ _ _ _ _ _ Hrun2)
      as (_ & _ & _ & _ & c & _ & _ & _ & _ & _ & _ & _ & _ & _ & _ & _ & _
          & info & ->).
    unfold mkdirCalls. rewrite Hex. simpl.
    rewrite drop_app_length. rewrite !elem_of_cons, elem_of_nil.
    intros [?|[?|[]]]; discriminate.
  - destruct (spawnProcess_failure _ _ _ _ _ _ Hrun2)
      as [-> | (Hno & _)]; [|congruence].
    rewrite drop_all. apply not_elem_of_nil.
Qed.

End LauncherOutcomes.

(* ===================================================================== *)
(** ** Further properties of the expression render handler                *)
(* ===================================================================== *)

Section HandlerProperties.
Import ExpressionRenderer ExpressionHandle.
Context {Element : Type}.
Variable registry_get : Value → option (@Renderer Element).
Implicit Types (h self : @ExpressionRenderHandler Element)
  (calls : list HandlerCall) (extraHandlers : list string).

Definition is_done (c : HandlerCall) : bool :=
  match c with CallDone => true | _ => false end.

Definition is_onDestroy (c : HandlerCall) : bool :=
  match c with CallOnDestroy _ => true | _ => false end.

(** The number of [done()] calls among [calls]. *)
Definition dones calls : nat :=
  length (filter (λ c, is_done c = true) calls).

Definition run_calls extraHandlers calls h : @ExpressionRenderHandler Element :=
  foldl (λ h c, run_call extraHandlers c h) h calls.

(** The values emitted on [render$] count up from 1 to [renderCount]. *)
Definition counting h : Prop :=
  0 ≤ renderCount h
  ∧ render_emitted h = Z.of_nat <$> seq 1 (Z.to_nat (renderCount h)).

Lemma counting_run_call extraHandlers c h :
  counting h → counting (run_call extraHandlers c h).
Proof.
  intros [Hpos Hem]. unfold run_call. case_bool_decide; [done|].
  destruct c; try done. unfold counting. simpl. split; [lia|].
  rewrite Hem. replace (Z.to_nat (renderCount h + 1))
    with (Z.to_nat (renderCount h) + 1)%nat by lia.
  rewrite seq_app, fmap_app. simpl. f_equal. f_equal. lia.
Qed.

Lemma counting_run_calls extraHandlers calls h :
  counting h → counting (run_calls extraHandlers calls h).
Proof.
  revert h. induction calls as [|c calls IH]; intros h Hh; [exact Hh|].
  apply IH, counting_run_call, Hh.
Qed.

Lemma element_run_calls extraHandlers calls h :
  element (run_calls extraHandlers calls h) = element h.
Proof.
  revert h. induction calls as [|c calls IH]; intros h; [reflexivity|].
  simpl. rewrite IH. unfold run_call. case_bool_decide; [reflexivity|].
  destruct c; reflexivity.
Qed.

(** What [render] leaves behind: the handler as it was, or the handler
    after the renderer's calls. *)
Lemma render_state self data extraHandlers :
  snd (render registry_get self data extraHandlers) = self
  ∨ ∃ calls,
      snd (render registry_get self data extraHandlers)
      = run_calls extraHandlers calls
          (note_invocation (get "as" data) (get "value" data) self).
Proof.
  unfold render.
  destruct (_ || _); [left; reflexivity|].
  destruct (registry_get _) as [renderer|]; [|left; reflexivity].
  destruct (renderer_render renderer _ _) as [calls [[]|e]];
    right; exists calls; reflexivity.
Qed.

(** X12. However a handler is used, the values it has emitted on
    [render$] are 1, 2, ..., [renderCount], in this order, and its element
    is the one it was created for. *)
Theorem render_counts_up (el : Element)
  (requests : list (Value * list string)) :
  let h := render_all registry_get (new_handler el) requests in
  0 ≤ renderCount h
  ∧ render_emitted h = Z.of_nat <$> seq 1 (Z.to_nat (renderCount h))
  ∧ getElement h = el.
Proof.
  cbv zeta.
  assert (Hinv : ∀ requests h,
            counting h →
            counting (render_all registry_get h requests)
            ∧ element (render_all registry_get h requests) = element h).
  { clear requests. intros requests.
    induction requests as [|[data extra] requests IH]; intros h Hh;
      [split; [exact Hh|reflexivity]|].
    unfold render_all. simpl.
    fold (render_all registry_get
            (snd (render registry_get h data extra)) requests).
    destruct (render_state h data extra) as [-> | [calls ->]].
    - apply IH, Hh.
    - destruct (IH (run_calls extra calls
                      (note_invocation (get "as" data) (get "value" data) h)))
        as [Hc He].
      { apply counting_run_calls. exact Hh. }
      split; [exact Hc|]. rewrite He, element_run_calls. reflexivity. }
  destruct (Hinv requests (new_handler el)) as [[Hpos Hem] Hel].
  { split; [simpl; lia|reflexivity]. }
  split_and!; [exact Hpos|exact Hem|exact Hel].
Qed.

Lemma emitted_run_calls extraHandlers calls h :
  "done" ∉ extraHandlers →
  renderCount (run_calls extraHandlers calls h)
  = renderCount h + Z.of_nat (dones calls)
  ∧ render_emitted (run_calls extraHandlers calls h)
    = render_emitted h
      ++ ((λ i, renderCount h + Z.of_nat i) <$> seq 1 (dones calls)).
Proof.
  intros Hdone. revert h.
  induction calls as [|c calls IH]; intros h.
  - unfold dones. simpl. rewrite app_nil_r. split; [lia|reflexivity].
  - simpl. destruct (IH (run_call extraHandlers c h)) as [IHc IHe].
    fold (run_calls extraHandlers calls (run_call extraHandlers c h)).
    rewrite IHc, IHe. unfold dones. rewrite filter_cons.
    unfold run_call.
    destruct c;
      try (rewrite decide_False by discriminate; fold (dones calls);
           case_bool_decide; simpl; (split; [lia|reflexivity])).
    rewrite decide_True by reflexivity.
    change (handler_name CallDone) with "done".
    rewrite bool_decide_eq_false_2 by exact Hdone.
    cbn [run_handler renderCount render_emitted length].
    fold (dones calls). split; [lia|].
    rewrite <- app_assoc. f_equal.
    change (seq 1 (S (dones calls))) with (1%nat :: seq 2 (dones calls)).
    rewrite fmap_cons. cbn [app]. f_equal; try lia.
    rewrite <- (fmap_S_seq 1), <- list_fmap_compose.
    apply list_fmap_ext. intros _ i _. simpl. lia.
Qed.


(** X13. When a registered renderer returns normally, the promise of
    [render] is resolved with [renderCount + 1] if the renderer has called
    [done()] in the meantime, and is still pending if it has not; every
    [done()] of the renderer adds one to [renderCount]. This is for a
    caller that does not bring its own [done]. *)
Theorem render_resolves_with_next_count self data extraHandlers renderer
  calls :
  ExpressionRenderer.renderable data →
  registry_get (get "as" data) = Some renderer →
  renderer_render renderer (element self) (get "value" data)
  = (calls, Normal ()) →
  "done" ∉ extraHandlers →
  let result := render registry_get self data extraHandlers in
  renderCount (snd result) = renderCount self + Z.of_nat (dones calls)
  ∧ (dones calls = 0%nat → fst result = Normal None)
  ∧ (dones calls ≠ 0%nat → fst result = Normal (Some (renderCount self + 1))).
Proof.
  intros Hok Hreg Hrun Hdone. cbv zeta.
  rewrite (render_passes_first_check registry_get self data extraHandlers Hok).
  rewrite Hreg, Hrun. simpl.
  destruct (emitted_run_calls extraHandlers calls
              (note_invocation (get "as" data) (get "value" data) self) Hdone)
    as [Hc He].
  unfold run_calls in Hc, He. rewrite Hc, He. simpl.
  split_and!; [reflexivity| |].
  - intros ->. simpl. rewrite app_nil_r.
    rewrite lookup_ge_None_2 by lia. reflexivity.
  - intros Hpos. destruct (dones calls) as [|k]; [done|].
    rewrite lookup_app_r by lia. rewrite Nat.sub_diag. simpl.
    do 2 f_equal.
Qed.


Lemma destroyFn_kept extraHandlers calls h :
  Forall (λ c, is_onDestroy c = false) calls →
  destroyFn (run_calls extraHandlers calls h) = destroyFn h.
Proof.
  intros Hall. revert h.
  induction Hall as [|c calls Hc _ IH]; intros h; [reflexivity|].
  simpl. fold (run_calls extraHandlers calls (run_call extraHandlers c h)).
  rewrite IH. unfold run_call. case_bool_decide; [reflexivity|].
  destruct c; try reflexivity. discriminate.
Qed.

(** X15. [destroy] calls the function that the renderer registered last
    with [onDestroy] (the earlier ones are forgotten), provided it is
    truthy; this holds whether the renderer then returned or threw. On a
    fresh handler [destroy] calls nothing. *)
Theorem destroy_calls_last_registered self data extraHandlers renderer
  before fn after outcome :
  ExpressionRenderer.renderable data →
  registry_get (get "as" data) = Some renderer →
  renderer_render renderer (element self) (get "value" data)
  = (before ++ CallOnDestroy fn :: after, outcome) →
  Forall (λ c, is_onDestroy c = false) after →
  "onDestroy" ∉ extraHandlers →
  destroy (snd (render registry_get self data extraHandlers))
  = (if truthy fn then Some fn else None)
  ∧ destroy (new_handler (element self)) = None.
Proof.
  intros Hok Hreg Hrun Hafter Hextra. split; [|reflexivity].
  rewrite (render_passes_first_check registry_get self data extraHandlers Hok).
  rewrite Hreg, Hrun.
  assert (Hfn : destroyFn
            (run_calls extraHandlers (before ++ CallOnDestroy fn :: after)
               (note_invocation (get "as" data) (get "value" data) self))
            = Some fn).
  { unfold run_calls. rewrite foldl_app. simpl.
    fold (run_calls extraHandlers after
            (run_call extraHandlers (CallOnDestroy fn)
               (foldl (λ h c, run_call extraHandlers c h)
                  (note_invocation (get "as" data) (get "value" data) self)
                  before))).
    rewrite destroyFn_kept by exact Hafter.
    unfold run_call. simpl.
    rewrite bool_decide_eq_false_2 by exact Hextra. reflexivity. }
  unfold run_calls in Hfn.
  destruct outcome as [[]|e]; simpl; unfold destroy; rewrite Hfn; reflexivity.
Qed.

(** X16. The exported [render] never throws: for data that [render]
    rejects (invalid, or for a renderer that is not registered) it hands
    back a fresh handler, the rejection being dropped; for other data the
    handler has invoked the renderer once, with [data.value]. *)
Theorem render_into_swallows_rejection (el : Element) (data : Value) :
  (¬ ExpressionRenderer.renderable data
   ∨ registry_get (get "as" data) = None →
   render_into registry_get el data = new_handler el)
  ∧ (ExpressionRenderer.renderable data →
     is_Some (registry_get (get "as" data)) →
     invoked (render_into registry_get el data)
     = [(get "as" data, get "value" data)]
     ∧ getElement (render_into registry_get el data) = el).
Proof.
  unfold render_into. split.
  - intros Hbad.
    destruct (truthy data) eqn:Hd;
      [|rewrite render_first_check by auto; reflexivity].
    destruct (strict_eq_str (get "type" data) "render") eqn:Ht;
      [|rewrite render_first_check by auto; reflexivity].
    destruct (truthy (get "as" data)) eqn:Ha;
      [|rewrite render_first_check by auto; reflexivity].
    destruct Hbad as [Hnot|Hnone]; [destruct Hnot; done|].
    rewrite render_passes_first_check by done. rewrite Hnone. reflexivity.
  - intros Hok [r Hr]. split.
    + rewrite (render_invokes registry_get _ _ _ r Hok Hr). reflexivity.
    + destruct (render_state (new_handler el) data []) as [-> | [calls ->]];
        [reflexivity|].
      unfold getElement. rewrite element_run_calls. reflexivity.
Qed.

End HandlerProperties.

(* ===================================================================== *)
(** ** Further properties of the events-over-time query                   *)
(* ===================================================================== *)

Section QueryFilterProperties.
Import EventsOverTime.
Variable createQueryFilterClauses : Value → list Value.
Variable calculateTimeseriesInterval : Value → Value → Value → Value.

Lemma spread_falsy (v other : Value) :
  truthy v = false → spread_props (js_and v other) = [].
Proof.
  intros Hv. unfold js_and. rewrite Hv.
  destruct v as [| |b|n|s|items|props]; try reflexivity; try discriminate.
  destruct s; [reflexivity|discriminate].
Qed.

(** X17. The filter of the query is the clauses made from [filterQuery],
    unchanged and in order, followed by exactly one range clause on the
    configured timestamp field, from [from] to [to] inclusive; the range
    carries [time_zone] exactly when the time range has a truthy
    [timezone]. *)
Theorem buildEventsOverTimeQuery_filter (opts : RequestBasicOptions) :
  let query :=
    buildEventsOverTimeQuery createQueryFilterClauses
      calculateTimeseriesInterval opts in
  let bounds := [("gte", from (timerange opts)); ("lte", to (timerange opts))] in
  get "filter" (get "bool" (get "query" (get "body" query)))
  = VArr (createQueryFilterClauses (filterQuery opts)
          ++ [VObj [("range",
                     VObj [(timestamp (fields (sourceConfiguration opts)),
                            VObj (if truthy (timezone (timerange opts))
                                  then bounds ++ [("time_zone",
                                                   timezone (timerange opts))]
                                  else bounds))])]]).
Proof.
  cbv zeta. unfold buildEventsOverTimeQuery.
  cbn [get assoc String.eqb Ascii.eqb Bool.eqb default from_option].
  destruct (truthy (timezone (timerange opts))) eqn:Htz.
  - unfold js_and. rewrite Htz. reflexivity.
  - rewrite spread_falsy by exact Htz. rewrite app_nil_r. reflexivity.
Qed.

(** X18. The aggregations depend on the two ends of the time range and
    on nothing else: not on the filter, the index, the time zone, nor on
    the configured timestamp field (the histogram is always on
    '@timestamp'). *)
Theorem buildEventsOverTimeQuery_aggregations (opts opts' : RequestBasicOptions) :
  from (timerange opts) = from (timerange opts') →
  to (timerange opts) = to (timerange opts') →
  get "aggregations"
    (get "body"
       (buildEventsOverTimeQuery createQueryFilterClauses
          calculateTimeseriesInterval opts))
  = get "aggregations"
      (get "body"
         (buildEventsOverTimeQuery createQueryFilterClauses
            calculateTimeseriesInterval opts')).
Proof.
  intros Hfrom Hto. unfold buildEventsOverTimeQuery.
  cbn [get assoc String.eqb Ascii.eqb Bool.eqb default from_option].
  rewrite Hfrom, Hto. reflexivity.
Qed.

End QueryFilterProperties.

(* ===================================================================== *)
(** ** Properties of the ML popover                                       *)
(* ===================================================================== *)

Section ReducerProperties.
Import MlPopover.
Context {JobSummary : Type}.
Implicit Types (state : @State JobSummary) (actions : list (@Action JobSummary)).

Definition is_refresh (a : @Action JobSummary) : bool :=
  match a with Refresh => true | _ => false end.

(** Actions that leave [isLoading] and [jobs] alone. *)
Definition keeps_status (a : @Action JobSummary) : bool :=
  match a with Refresh | OtherAction => true | _ => false end.

Lemma reduce_snoc state actions a :
  reduce state (actions ++ [a]) = mlPopoverReducer (reduce state actions) a.
Proof. unfold reduce. apply foldl_snoc. Qed.

(** X1. After any sequence of actions the refresh toggle is the initial
    one, flipped once for every 'refresh' in the sequence: it is back at
    its initial value exactly when their number is even. *)
Theorem refreshToggle_parity state actions :
  refreshToggle (reduce state actions)
  = xorb (refreshToggle state)
         (Nat.odd (length (filter (λ a, is_refresh a = true) actions))).
Proof.
  induction actions as [|a actions IH] using rev_ind.
  - simpl. rewrite xorb_false_r. reflexivity.
  - rewrite reduce_snoc, filter_app, length_app.
    destruct a; simpl; rewrite ?Nat.add_0_r, ?IH; try reflexivity.
    rewrite Nat.add_1_r, Nat.odd_succ, <- Nat.negb_odd.
    destruct (refreshToggle state), (Nat.odd _); reflexivity.
Qed.

Lemma reduce_app state actions more :
  reduce state (actions ++ more) = reduce (reduce state actions) more.
Proof. unfold reduce. apply foldl_app. Qed.

Lemma reduce_keeps_status state actions :
  Forall (λ a, keeps_status a = true) actions →
  isLoading (reduce state actions) = isLoading state
  ∧ jobs (reduce state actions) = jobs state.
Proof.
  induction actions as [|a actions IH] using rev_ind; [done|].
  intros [Hall Ha]%Forall_app. rewrite reduce_snoc.
  inversion Ha as [|? ? Ha' _]; subst. destruct (IH Hall) as [IH1 IH2].
  destruct a; try discriminate; simpl; split; assumption.
Qed.

(** X2. The loading flag and the job list are those set by the last
    'loading', 'success' or 'failure' action: 'loading' raises the flag and
    keeps the jobs, 'success' lowers it and stores the results, 'failure'
    lowers it and empties the list; the 'refresh' and unknown actions after
    it change neither. *)
Theorem status_set_by_last_status_action state before a after :
  Forall (λ a, keeps_status a = true) after →
  let final := reduce state (before ++ a :: after) in
  match a with
  | Loading =>
      isLoading final = true ∧ jobs final = jobs (reduce state before)
  | Success results => isLoading final = false ∧ jobs final = results
  | Failure => isLoading final = false ∧ jobs final = []
  | Refresh | OtherAction =>
      isLoading final = isLoading (reduce state before)
      ∧ jobs final = jobs (reduce state before)
  end.
Proof.
  intros Hafter. cbv zeta. rewrite reduce_app.
  change (reduce (reduce state before) (a :: after))
    with (reduce (mlPopoverReducer (reduce state before) a) after).
  destruct (reduce_keeps_status
              (mlPopoverReducer (reduce state before) a) after Hafter)
    as [-> ->].
  destruct a; simpl; auto.
Qed.

End ReducerProperties.

Section EnableDatafeedProperties.
Import MlPopover.
Context {JobSummary : Type}.
Implicit Types (oracle : Oracle (@PopoverCall JobSummary))
  (history : list (@PopoverCall JobSummary)).

Ltac run_script :=
  unfold enableDatafeed, submitTelemetry, try_catch, await, perform;
  unfold mbind, script_bind, mret, script_ret; simpl.

(** How a run of [enableDatafeed] can go. *)
Inductive Course : Type :=
| SetupFailed (error : JsError)
| Switched (failure : option JsError).

Definition telemetryOf (job : SiemJob) (enable : bool)
  : @PopoverCall JobSummary :=
  Track COUNT
    (if isElasticJob job then
       if enable then SIEM_JOB_ENABLED else SIEM_JOB_DISABLED
     else if enable then CUSTOM_JOB_ENABLED else CUSTOM_JOB_DISABLED).

Definition setupOf (kbnVersion : string) (job : SiemJob)
  : @PopoverCall JobSummary :=
  SetupMlJob {| configTemplate := moduleId job;
                indexPatternName := defaultIndexPattern job;
                jobIdErrorFilter := [id job];
                setup_groups := groups job;
                setup_kbnVersion := kbnVersion |}.

Definition switchOf (kbnVersion : string) (now : Z) (job : SiemJob)
  (latestTimestampMs : Z) (enable : bool) : @PopoverCall JobSummary :=
  if enable then
    StartDatafeeds {| start_datafeedIds := ["datafeed-" +:+ id job];
                      start_kbnVersion := kbnVersion;
                      start := Z.max latestTimestampMs (twoWeeksBefore now) |}
  else
    StopDatafeeds {| stop_datafeedIds := ["datafeed-" +:+ id job];
                     stop_kbnVersion := kbnVersion |}.

Definition failureReport (enable : bool) (error : JsError)
  : list (@PopoverCall JobSummary) :=
  if enable then
    [Track COUNT JOB_ENABLE_FAILURE; ErrorToToaster START_JOB_FAILURE error]
  else
    [Track COUNT JOB_DISABLE_FAILURE; ErrorToToaster STOP_JOB_FAILURE error].

(** The calls of a run, by its course. *)
Definition callsOf (kbnVersion : string) (now : Z) (job : SiemJob)
  (latestTimestampMs : Z) (enable : bool) (course : Course)
  : list (@PopoverCall JobSummary) :=
  [telemetryOf job enable]
  ++ (if isInstalled job then [] else [setupOf kbnVersion job])
  ++ match course with
     | SetupFailed error =>
         [ErrorToToaster CREATE_JOB_FAILURE error; Dispatch Refresh]
     | Switched failure =>
         [switchOf kbnVersion now job latestTimestampMs enable]
         ++ from_option (failureReport enable) [] failure
         ++ [Dispatch Refresh]
     end.

(** Every run of [enableDatafeed] resolves, and takes one of the
    courses. *)
Lemma enableDatafeed_course kbnVersion now job latestTimestampMs enable
  oracle history :
  ∃ course,
    enableDatafeed kbnVersion now job latestTimestampMs enable oracle history
    = (Normal (),
       history ++ callsOf kbnVersion now job latestTimestampMs enable course)
    ∧ match course with
      | SetupFailed error =>
          isInstalled job = false
          ∧ oracle (history ++ [telemetryOf job enable;
                                setupOf kbnVersion job]) = Throw error
      | Switched failure =>
          (isInstalled job = false →
           oracle (history ++ [telemetryOf job enable;
                               setupOf kbnVersion job]) = Normal ())
      end.
Proof.
  unfold callsOf, failureReport, switchOf. run_script.
  fold (telemetryOf job enable). fold (setupOf kbnVersion job).
  destruct (isInstalled job) eqn:Hinst, enable; simpl;
    rewrite <- ?app_assoc; simpl;
    repeat (match goal with
            | |- context [oracle ?h] =>
                destruct (oracle h) as [[]|?] eqn:?
            end; simpl; rewrite <- ?app_assoc; simpl);
    first
      [ exists (Switched None); simpl; rewrite <- ?app_assoc;
        split; [reflexivity | done]
      | eexists (Switched (Some _)); simpl; rewrite <- ?app_assoc;
        split; [reflexivity | done]
      | eexists (SetupFailed _); simpl; rewrite <- ?app_assoc;
        split; [reflexivity | done] ].
Qed.

Lemma callsOf_shape kbnVersion now job latestTimestampMs enable course :
  ∃ calls,
    callsOf kbnVersion now job latestTimestampMs enable course
    = telemetryOf job enable :: calls ++ [Dispatch Refresh]
    ∧ (∀ a, Dispatch a ∉ calls)
    ∧ (∀ m e, Track m e ∈ calls →
              e = JOB_ENABLE_FAILURE ∨ e = JOB_DISABLE_FAILURE).
Proof.
  exists ((if isInstalled job then [] else [setupOf kbnVersion job])
          ++ match course with
             | SetupFailed error => [ErrorToToaster CREATE_JOB_FAILURE error]
             | Switched failure =>
                 switchOf kbnVersion now job latestTimestampMs enable
                 :: from_option (failureReport enable) [] failure
             end).
  unfold callsOf, switchOf, failureReport, setupOf.
  destruct course as [error|[error|]], (isInstalled job), enable; simpl;
    (split; [reflexivity|]);
    (split; [intros a | intros m e]);
    rewrite ?elem_of_cons, ?elem_of_nil;
    intros H; repeat (destruct H as [H|H]; try discriminate); try done;
    injection H as _ <-; auto.
Qed.

(** X3. [enableDatafeed] never rejects, whatever its collaborators do:
    it reports the telemetry event of the switch first, and its last call,
    and only dispatch, is the dispatch of 'refresh'. Apart from the first,
    the only telemetry events are the two failure events. *)
Theorem enableDatafeed_resolves_and_refreshes kbnVersion now job
  latestTimestampMs enable oracle history :
  ∃ calls,
    enableDatafeed kbnVersion now job latestTimestampMs enable oracle history
    = (Normal (),
       history
       ++ Track COUNT
            (if isElasticJob job then
               if enable then SIEM_JOB_ENABLED else SIEM_JOB_DISABLED
             else
               if enable then CUSTOM_JOB_ENABLED else CUSTOM_JOB_DISABLED)
          :: calls ++ [Dispatch Refresh])
    ∧ (∀ a, Dispatch a ∉ calls)
    ∧ (∀ m e, Track m e ∈ calls →
              e = JOB_ENABLE_FAILURE ∨ e = JOB_DISABLE_FAILURE).
Proof.
  destruct (enableDatafeed_course kbnVersion now job latestTimestampMs enable
              oracle history) as (course & -> & _).
  destruct (callsOf_shape kbnVersion now job latestTimestampMs enable course)
    as (calls & -> & Hd & Ht).
  exists calls. split_and!; [reflexivity|exact Hd|exact Ht].
Qed.

(** X4. When the job is not installed and [setupMlJob] rejects, the
    error goes to the toaster under the create-job title, 'refresh' is
    dispatched, and nothing else happens: no datafeed is started or
    stopped. *)
Theorem enableDatafeed_setup_failure kbnVersion now job latestTimestampMs
  enable oracle history error :
  isInstalled job = false →
  oracle (history ++ [telemetryOf job enable; setupOf kbnVersion job])
  = Throw error →
  enableDatafeed kbnVersion now job latestTimestampMs enable oracle history
  = (Normal (),
     history ++ [telemetryOf job enable; setupOf kbnVersion job;
                 ErrorToToaster CREATE_JOB_FAILURE error; Dispatch Refresh]).
Proof.
  intros Hinst Hfail.
  destruct (enableDatafeed_course kbnVersion now job latestTimestampMs enable
              oracle history) as ([error'|failure] & -> & Hcourse).
  - destruct Hcourse as [_ Herr]. rewrite Hfail in Herr.
    injection Herr as <-. unfold callsOf. rewrite Hinst. reflexivity.
  - rewrite (Hcourse Hinst) in Hfail. discriminate.
Qed.

(** X5. [setupMlJob] is called exactly when the job is not installed,
    and then for the job's module, index pattern, id and groups. *)
Theorem enableDatafeed_sets_up_uninstalled kbnVersion now job
  latestTimestampMs enable oracle history :
  ∃ calls,
    snd (enableDatafeed kbnVersion now job latestTimestampMs enable oracle
           history) = history ++ calls
    ∧ ∀ args,
        SetupMlJob args ∈ calls
        ↔ isInstalled job = false
          ∧ args = {| configTemplate := moduleId job;
                      indexPatternName := defaultIndexPattern job;
                      jobIdErrorFilter := [id job];
                      setup_groups := groups job;
                      setup_kbnVersion := kbnVersion |}.
Proof.
  destruct (enableDatafeed_course kbnVersion now job latestTimestampMs enable
              oracle history) as (course & -> & _).
  eexists. split; [reflexivity|]. intros args.
  unfold callsOf, telemetryOf, switchOf, failureReport, setupOf.
  destruct course as [error|[error|]], (isInstalled job), enable; simpl;
    rewrite ?elem_of_cons, ?elem_of_nil;
    (split;
     [ intros H; repeat (destruct H as [H|H]; try discriminate); try done;
       injection H as <-; split; reflexivity
     | intros [Hi ->]; try discriminate; auto ]).
Qed.

(** X6. A datafeed is started only when enabling and stopped only when
    disabling, always the one named 'datafeed-<job id>'; the start time
    handed over is the later of the job's latest timestamp and two weeks
    (1,209,600,000 ms) before now, so never earlier than either. *)
Theorem enableDatafeed_start_time kbnVersion now job latestTimestampMs
  enable oracle history :
  ∃ calls,
    snd (enableDatafeed kbnVersion now job latestTimestampMs enable oracle
           history) = history ++ calls
    ∧ (∀ args,
         StartDatafeeds args ∈ calls →
         enable = true
         ∧ start_datafeedIds args = ["datafeed-" +:+ id job]
         ∧ start args = Z.max latestTimestampMs (now - 1209600000)
         ∧ now - 1209600000 ≤ start args
         ∧ latestTimestampMs ≤ start args)
    ∧ (∀ args,
         StopDatafeeds args ∈ calls →
         enable = false
         ∧ stop_datafeedIds args = ["datafeed-" +:+ id job]).
Proof.
  destruct (enableDatafeed_course kbnVersion now job latestTimestampMs enable
              oracle history) as (course & -> & _).
  eexists. split; [reflexivity|].
  unfold callsOf, telemetryOf, switchOf, failureReport, setupOf,
    twoWeeksBefore.
  split; intros args;
    destruct course as [error|[error|]], (isInstalled job), enable; simpl;
    rewrite ?elem_of_cons, ?elem_of_nil;
    intros H; repeat (destruct H as [H|H]; try discriminate); try done;
    injection H as ->; simpl; split_and!; try reflexivity; lia.
Qed.

(** X7. Fed to the reducer, the dispatches of one [enableDatafeed] flip
    the refresh toggle once and leave the loading flag and the jobs as
    they were. *)
Theorem enableDatafeed_flips_toggle kbnVersion now job latestTimestampMs
  enable oracle history (state : @State JobSummary) :
  ∃ calls,
    snd (enableDatafeed kbnVersion now job latestTimestampMs enable oracle
           history) = history ++ calls
    ∧ reduce state (dispatched calls)
      = {| isLoading := isLoading state; jobs := jobs state;
           refreshToggle := negb (refreshToggle state) |}.
Proof.
  destruct (enableDatafeed_course kbnVersion now job latestTimestampMs enable
              oracle history) as (course & -> & _).
  eexists. split; [reflexivity|].
  unfold callsOf, telemetryOf, switchOf, failureReport, setupOf.
  destruct course as [error|[error|]], (isInstalled job), enable;
    reflexivity.
Qed.

End EnableDatafeedProperties.

Section IncompatibleJobs.
Import MlPopover.


End IncompatibleJobs.

(* ===================================================================== *)
(** ** Properties of the core server                                      *)
(* ===================================================================== *)

Section MapProperties.
Import CoreServer.
Context {K V : Type} `{EqDecision K}.
Implicit Types (m entries : list (K * V)).

Lemma map_get_set k k' v m :
  map_get k (map_set k' v m)
  = if decide (k = k') then Some v else map_get k m.
Proof.
  induction m as [|[k0 v0] m IH]; simpl.
  - reflexivity.
  - destruct (decide (k' = k0)) as [->|Hne]; simpl.
    + destruct (decide (k = k0)); reflexivity.
    + destruct (decide (k = k0)) as [->|]; simpl.
      * rewrite decide_False by congruence. reflexivity.
      * exact IH.
Qed.

Lemma map_set_fresh k v m :
  k ∉ m.*1 → map_set k v m = m ++ [(k, v)].
Proof.
  induction m as [|[k0 v0] m IH]; simpl; [reflexivity|].
  rewrite not_elem_of_cons. intros [Hne Hnot].
  rewrite decide_False by exact Hne. rewrite IH by exact Hnot. reflexivity.
Qed.

Lemma Map_of_snoc entries k v :
  Map_of (entries ++ [(k, v)]) = map_set k v (Map_of entries).
Proof. unfold Map_of. rewrite foldl_snoc. reflexivity. Qed.

(** Building a [Map] from the entries of a [Map] gives it back. *)
Lemma Map_of_entries m : NoDup m.*1 → Map_of m = m.
Proof.
  induction m as [|[k v] m IH] using rev_ind; [reflexivity|].
  rewrite fmap_app, NoDup_app. simpl. intros (Hm & Hdisj & _).
  rewrite Map_of_snoc, IH by exact Hm.
  apply map_set_fresh. intros Hin. apply (Hdisj k Hin). left.
Qed.

End MapProperties.

Section ContextDependencies.
Import CoreServer.
Context {K : Type} `{EqDecision K}.

(** X9. In the plugin dependencies that [setup] hands to the context
    service, the legacy pseudo-plugin depends on every discovered plugin,
    in discovery order, and every other plugin keeps the dependencies it was
    discovered with. When the legacy id is none of the plugin names, the
    map is the discovered one with the legacy entry added last. *)
Theorem legacy_depends_on_every_plugin (legacyId : K)
  (pluginDependencies : list (K * list K)) :
  NoDup (map_keys pluginDependencies) →
  let deps := contextPluginDependencies legacyId pluginDependencies in
  map_get legacyId deps = Some (map_keys pluginDependencies)
  ∧ (∀ plugin, plugin ≠ legacyId →
               map_get plugin deps = map_get plugin pluginDependencies)
  ∧ (legacyId ∉ map_keys pluginDependencies →
     deps = pluginDependencies
            ++ [(legacyId, map_keys pluginDependencies)]).
Proof.
  intros Hnodup. cbv zeta. unfold contextPluginDependencies.
  rewrite Map_of_snoc, Map_of_entries by exact Hnodup.
  split_and!.
  - rewrite map_get_set, decide_True by reflexivity. reflexivity.
  - intros plugin Hne. rewrite map_get_set, decide_False by exact Hne.
    reflexivity.
  - intros Hfresh. apply map_set_fresh. exact Hfresh.
Qed.

End ContextDependencies.

Section ServerProperties.
Import CoreServer.
Context {ConfigPath Schema : Type}.
Implicit Types (oracle : Oracle (@ServerCall ConfigPath Schema))
  (history : list (@ServerCall ConfigPath Schema)).

Definition stopOrder : list Service :=
  [Legacy; Plugins; SavedObjects; Elasticsearch; Http].

(** X10. [stop] stops the services in the order legacy, plugins, saved
    objects, elasticsearch, http. It resolves when all five have stopped;
    when a stop rejects, [stop] rejects with that error at once and the
    services after it are not stopped. *)
Theorem stop_in_order_until_failure oracle history :
  ∃ n,
    (1 ≤ n ≤ 5)%nat
    ∧ snd (stop oracle history)
      = history ++ LogDebug "stopping server"
                   :: (StopService <$> take n stopOrder)
    ∧ fst (stop oracle history) = oracle (snd (stop oracle history))
    ∧ (fst (stop oracle history) = Normal () → n = 5%nat)
    ∧ ∀ k, (1 ≤ k < n)%nat →
           oracle (history ++ LogDebug "stopping server"
                             :: (StopService <$> take k stopOrder))
           = Normal ().
Proof.
  unfold stop, await, perform, mbind, script_bind. simpl.
  rewrite <- !app_assoc. simpl.
  repeat (match goal with
          | |- context [match oracle ?h with _ => _ end] =>
              let Ho := fresh "Ho" in
              destruct (oracle h) as [[]|?] eqn:Ho
          end; rewrite <- ?app_assoc; simpl);
    [ exists 5%nat | exists 4%nat | exists 3%nat | exists 2%nat
    | exists 1%nat ];
    simpl; rewrite ?Ho, ?Ho0, ?Ho1, ?Ho2, ?Ho3;
    split_and!; try done; try lia;
    intros k Hk;
    do 5 (destruct k as [|k]; [first [lia | simpl; assumption]|]); lia.
Qed.

(** A loop of awaited calls makes them in order and ends with the first
    that rejects. *)
Lemma for_of_await {A} (call : A → @ServerCall ConfigPath Schema)
  (xs : list A) oracle history :
  ∃ n,
    (n ≤ length xs)%nat
    ∧ snd (for_of xs (λ x, await (call x)) oracle history)
      = history ++ (call <$> take n xs)
    ∧ (fst (for_of xs (λ x, await (call x)) oracle history) = Normal ()
       ↔ n = length xs
         ∧ ∀ k, (1 ≤ k ≤ n)%nat →
                oracle (history ++ (call <$> take k xs)) = Normal ())
    ∧ (∀ e, fst (for_of xs (λ x, await (call x)) oracle history) = Throw e →
            (1 ≤ n)%nat
            ∧ oracle (history ++ (call <$> take n xs)) = Throw e)
    ∧ ∀ k, (1 ≤ k < n)%nat →
           oracle (history ++ (call <$> take k xs)) = Normal ().
Proof.
  revert history. induction xs as [|x xs IH]; intros history.
  - exists 0%nat. simpl. rewrite app_nil_r. split_and!; try done.
    + split; [intros _; split; [done|intros k Hk; lia]|done].
    + intros k Hk; lia.
  - simpl. unfold mbind, script_bind, await at 1. simpl.
    assert (Hcons : ∀ l, (history ++ [call x]) ++ l = history ++ call x :: l)
      by (intros l; rewrite <- app_assoc; reflexivity).
    destruct (oracle (history ++ [call x])) as [[]|e] eqn:Hx.
    + destruct (IH (history ++ [call x]))
        as (n & Hn & Hsnd & Hok & Herr & Hbefore).
      setoid_rewrite Hcons in Hok. setoid_rewrite Hcons in Herr.
      setoid_rewrite Hcons in Hbefore. rewrite Hcons in Hsnd.
      exists (S n). simpl.
      split_and!.
      * lia.
      * exact Hsnd.
      * rewrite Hok. split.
        -- intros [-> Hall]. split; [reflexivity|].
           intros k Hk. destruct k as [|k]; [lia|]. simpl.
           destruct k as [|k]; [rewrite ?take_0; exact Hx|].
           apply Hall. lia.
        -- intros [[= ->] Hall]. split; [reflexivity|].
           intros k Hk. apply (Hall (S k)). lia.
      * intros e He. destruct (Herr e He) as [Hn1 Ho]. split; [lia|exact Ho].
      * intros k Hk. destruct k as [|k]; [lia|]. simpl.
        destruct k as [|k]; [rewrite ?take_0; exact Hx|].
        apply Hbefore. lia.
    + exists 1%nat. simpl. rewrite ?take_0. simpl. split_and!.
      * lia.
      * reflexivity.
      * split; [discriminate|].
        intros [_ Hall]. specialize (Hall 1%nat). simpl in Hall.
        rewrite ?take_0 in Hall. simpl in Hall.
        rewrite Hall in Hx by lia. discriminate.
      * intros e' [= <-]. split; [lia|exact Hx].
      * intros k Hk; lia.
Qed.

Section SchemaProperties.
Variables elasticsearchConfig loggingConfig httpConfig pluginsConfig
  devConfig kibanaConfig savedObjectsConfig uiSettingsConfig
  : @ConfigDescriptor ConfigPath Schema.

(** X11. [setupConfigSchemas] registers the schemas of elasticsearch,
    logging, http, plugins, dev, kibana, saved objects and ui settings, in
    that order, each under its config path. It resolves exactly when all
    eight registrations do; the first one that rejects ends it with that
    error, and the schemas after it are not registered. *)
Theorem setupConfigSchemas_prefix oracle history :
  let run :=
    setupConfigSchemas elasticsearchConfig loggingConfig httpConfig
      pluginsConfig devConfig kibanaConfig savedObjectsConfig
      uiSettingsConfig oracle history in
  let registered (n : nat) :=
    history
    ++ ((λ ps, SetSchema ps.1 ps.2)
          <$> take n (schemas elasticsearchConfig loggingConfig httpConfig
                        pluginsConfig devConfig kibanaConfig
                        savedObjectsConfig uiSettingsConfig)) in
  ∃ n,
    (n ≤ 8)%nat
    ∧ snd run = registered n
    ∧ (fst run = Normal ()
       ↔ n = 8%nat
         ∧ ∀ k, (1 ≤ k ≤ n)%nat → oracle (registered k) = Normal ())
    ∧ (∀ e, fst run = Throw e → (1 ≤ n)%nat ∧ oracle (registered n) = Throw e)
    ∧ ∀ k, (1 ≤ k < n)%nat → oracle (registered k) = Normal ().
Proof.
  cbv zeta. unfold setupConfigSchemas.
  exact (for_of_await (λ ps : ConfigPath * Schema, SetSchema ps.1 ps.2)
           (schemas elasticsearchConfig loggingConfig httpConfig pluginsConfig
              devConfig kibanaConfig savedObjectsConfig uiSettingsConfig)
           oracle history).
Qed.

End SchemaProperties.
End ServerProperties.

(* --------------------------------------------------------------------- *)
(** *** The further properties on concrete inputs                         *)
(* --------------------------------------------------------------------- *)

Section PopoverRuns.
Import MlPopover Samples.

Lemma status_set_by_last_status_action_run :
  isLoading (reduce (@initialState string)
               ([Loading] ++ Success ["rare_process"] :: [Refresh; Refresh]))
  = false
  ∧ jobs (reduce (@initialState string)
            ([Loading] ++ Success ["rare_process"] :: [Refresh; Refresh]))
    = ["rare_process"].
Proof.
  apply (status_set_by_last_status_action (@initialState string) [Loading]
           (Success ["rare_process"]) [Refresh; Refresh]).
  repeat constructor.
Defined.

Lemma enableDatafeed_setup_failure_run :
  enableDatafeed "7.5.0" 1577836800000 rare_process 0 true setup_rejects []
  = (Normal (),
     [Track COUNT SIEM_JOB_ENABLED;
      SetupMlJob {| configTemplate := "siem_auditbeat";
                    indexPatternName := "auditbeat-*";
                    jobIdErrorFilter := ["rare_process_by_host_linux_ecs"];
                    setup_groups := ["siem"; "auditbeat"];
                    setup_kbnVersion := "7.5.0" |};
      ErrorToToaster CREATE_JOB_FAILURE (Error "Not Found");
      Dispatch Refresh]).
Proof.
  apply (enableDatafeed_setup_failure (JobSummary := string) "7.5.0"
           1577836800000 rare_process 0 true setup_rejects []
           (Error "Not Found")).
  - reflexivity.
  - reflexivity.
Defined.

End PopoverRuns.

Section ServerRuns.
Import CoreServer Samples.

Lemma legacy_depends_on_every_plugin_run :
  map_get "legacy" (contextPluginDependencies "legacy" discovered)
  = Some ["data"; "embeddable"; "siem"]
  ∧ map_get "siem" (contextPluginDependencies "legacy" discovered)
    = Some ["data"; "embeddable"].
Proof.
  assert (Hnodup : NoDup (map_keys discovered)).
  { unfold discovered, map_keys. simpl.
    repeat (apply NoDup_cons_2;
            [rewrite ?elem_of_cons, elem_of_nil; intuition discriminate|]).
    apply NoDup_nil_2. }
  destruct (legacy_depends_on_every_plugin "legacy" discovered Hnodup)
    as (Hlegacy & Hother & _).
  split.
  - exact Hlegacy.
  - rewrite (Hother "siem") by discriminate. reflexivity.
Defined.

End ServerRuns.

Section HandlerRuns.
Import ExpressionRenderer ExpressionHandle Samples.

Lemma render_resolves_with_next_count_run :
  fst (render two_renderers (new_handler "div") chart [])
  = Normal (Some 1)
  ∧ renderCount (snd (render two_renderers (new_handler "div") chart []))
    = 1.
Proof.
  destruct (render_resolves_with_next_count two_renderers (new_handler "div")
              chart [] with_cleanup
              [CallOnDestroy (VObj [("name", VStr "first")]);
               CallDone;
               CallOnDestroy (VObj [("name", VStr "second")])])
    as (Hcount & _ & Hsome).
  - unfold renderable. split_and!; reflexivity.
  - reflexivity.
  - reflexivity.
  - apply not_elem_of_nil.
  - split.
    + apply Hsome. discriminate.
    + exact Hcount.
Defined.


Lemma destroy_calls_last_registered_run :
  destroy (snd (render two_renderers (new_handler "div") chart []))
  = Some (VObj [("name", VStr "second")]).
Proof.
  apply (destroy_calls_last_registered two_renderers (new_handler "div")
           chart [] with_cleanup
           [CallOnDestroy (VObj [("name", VStr "first")]); CallDone]
           (VObj [("name", VStr "second")]) [] (Normal ())).
  - unfold renderable. split_and!; reflexivity.
  - reflexivity.
  - reflexivity.
  - constructor.
  - apply not_elem_of_nil.
Defined.

Lemma render_into_swallows_rejection_run :
  render_into two_renderers "div" VNull = new_handler "div"
  ∧ invoked (render_into two_renderers "div" chart)
    = [(VStr "chart", VNum 7)].
Proof.
  split.
  - apply (proj1 (render_into_swallows_rejection two_renderers "div" VNull)).
    left. intros (Hd & _). discriminate.
  - apply (proj2 (render_into_swallows_rejection two_renderers "div" chart)).
    + unfold renderable. split_and!; reflexivity.
    + eexists. reflexivity.
Defined.

End HandlerRuns.

Section QueryFilterRuns.
Import EventsOverTime Scenario.

Lemma buildEventsOverTimeQuery_aggregations_run :
  get "aggregations"
    (get "body" (buildEventsOverTimeQuery (λ _, []) (λ _ _ _, VNum 1800)
                   last_day))
  = get "aggregations"
      (get "body"
         (buildEventsOverTimeQuery (λ _, []) (λ _ _ _, VNum 1800)
            {| filterQuery := VStr "host.name: siem";
               timerange := {| from := VNum 1577836800000;
                               timezone := VStr "Europe/Paris";
                               to := VNum 1577923200000 |};
               defaultIndex := VArr [VStr "filebeat-*"];
               sourceConfiguration :=
                 {| fields := {| timestamp := "event.ingested" |} |} |})).
Proof.
  apply (buildEventsOverTimeQuery_aggregations (λ _, []) (λ _ _ _, VNum 1800)).
  - reflexivity.
  - reflexivity.
Defined.

End QueryFilterRuns.

Section PosixFileSystem.

(** On the reference host a directory made by [mkdirSync] exists, and
    starting a file leaves the file system alone. *)
Lemma mkdir_at_exists wd p st st' :
  Posix.mkdir_at wd p st = (Normal (), st') → Posix.exists_at wd p st' = true.
Proof.
  unfold Posix.mkdir_at, Posix.exists_at. intros Hmk.
  destruct (bool_decide (_ ∈ Posix.files st)); [discriminate|].
  destruct (bool_decide (_ ∈ _ :: Posix.files st)); [|discriminate].
  injection Hmk as <-. simpl. apply bool_decide_eq_true_2.
  apply elem_of_app. right. left.
Qed.

Lemma start_file_keeps_files wd p file args opts st :
  Posix.exists_at wd p (snd (Posix.start_file file args opts st))
  = Posix.exists_at wd p st.
Proof.
  unfold Posix.start_file, Posix.exists_at.
  destruct (bool_decide (file ∈ Posix.files st)); reflexivity.
Qed.

End PosixFileSystem.

Section LauncherOutcomeRuns.
Import Scenario Samples.

Lemma spawnProcess_mkdir_failure_run :
  @spawnProcess linux (launcher false) 5000 "lsp" no_cache_parent
  = (Throw (Error ("ENOENT: no such file or directory, mkdir "
                     +:+ "'/var/lib/kibana/gopath'")),
     {| os := os no_cache_parent; procs := [];
        trace := [@CallMkdir linux "/var/lib/kibana/gopath"] |}).
Proof.
  apply (@spawnProcess_mkdir_failure linux (launcher false) 5000 "lsp"
           no_cache_parent "go-langserver" [] "sdk/go" ["sdk/go/bin"]).
  - vm_compute. reflexivity.
  - vm_compute. reflexivity.
  - vm_compute. discriminate.
  - vm_compute. reflexivity.
  - vm_compute. reflexivity.
Defined.

Lemma spawnProcess_environment_variables_run :
  ∃ prog w',
    @spawnProcess linux (launcher false) 5000 "lsp" complete
    = (Normal prog, w')
    ∧ ∃ c, procs w' !! child prog = Some c
      ∧ env (spawnopts c) !! "HOME" = None
      ∧ is_Some (env (spawnopts c) !! "GIT_SSL_CAINFO").
Proof.
  destruct complete_launch as [w' Hrun].
  eexists _, w'. split; [exact Hrun|].
  destruct (@spawnProcess_environment_variables linux _ _ _ _ _ _ Hrun)
    as (c & Hc & Hnames).
  exists c. split_and!.
  - exact Hc.
  - apply eq_None_not_Some. rewrite Hnames.
    rewrite !elem_of_cons, elem_of_nil.
    intros H; repeat (destruct H as [H|H]; try discriminate);
      destruct H; discriminate.
  - apply Hnames. right. right. split; reflexivity.
Defined.

Lemma spawnProcess_git_variables_run :
  ∃ prog w',
    @spawnProcess linux (launcher false) 5000 "lsp" complete
    = (Normal prog, w')
    ∧ ∃ c, procs w' !! child prog = Some c
      ∧ env (spawnopts c) !! "PREFIX"
        = Some "/srv/kibana/node_modules/git/native"
      ∧ env (spawnopts c) !! "GIT_SSL_CAINFO"
        = Some "/srv/kibana/node_modules/git/native/ssl/cacert.pem".
Proof.
  destruct complete_launch as [w' Hrun].
  eexists _, w'. split; [exact Hrun|].
  destruct (@spawnProcess_git_variables linux _ _ _ _ _ _ Hrun)
    as (c & Hc & Hlinux & _).
  destruct (Hlinux eq_refl) as [Hprefix Hca].
  exists c. split_and!.
  - exact Hc.
  - rewrite Hprefix. reflexivity.
  - rewrite Hca. vm_compute. reflexivity.
Defined.

Lemma spawnProcess_second_launch_no_mkdir_run :
  ∃ prog w',
    @spawnProcess linux (launcher false) 5000 "lsp" complete
    = (Normal prog, w')
    ∧ @fs_existsSync linux "/var/lib/kibana/gopath" (os w') = true
    ∧ ∀ d, @CallMkdir linux d
           ∉ drop (length (trace w'))
               (trace (snd (@spawnProcess linux (launcher false) 5001 "lsp"
                              w'))).
Proof.
  destruct complete_launch as [w' Hrun].
  eexists _, w'. split; [exact Hrun|].
  refine (@spawnProcess_second_launch_no_mkdir linux (launcher false) 5000
            "lsp" complete _ w' 5001 "lsp" _ _ Hrun).
  - intros o o'. apply mkdir_at_exists.
  - intros file args opts o Hex.
    change (Posix.exists_at "/srv/kibana" "/var/lib/kibana/gopath"
              (snd (Posix.start_file file args opts o)) = true).
    rewrite start_file_keeps_files. exact Hex.
Defined.

End LauncherOutcomeRuns.
